(** * Smart-DCA-Tool: the investment calculator

    A shallow embedding of [src/investment_calculator.py]
    (class [InvestmentCalculator]) and of the purchase-history queries
    of [src/history_manager.py] that it relies on, with the properties
    of the weekly allocation, rebalancing, crash-detection and
    simulation arithmetic.

    Modelling conventions.
    - Python numbers are exact rationals [Q]; share counts, which Python
      obtains from [round], are integers [Z].  Comparisons are the
      semantic ones on [Q] ([Qle_bool], [Qeq_bool]).  The rationals
      idealise binary floats, so the theorems state what the code's own
      expressions and comparisons give and leave out identities that
      need exact sums or quotients.
    - A Python [dict] is an association list in insertion order:
      iteration order decides the tie-break of the overflow loop.
    - A Python exception is a value of [exn]; a function that can raise
      returns [result].  The only exception the arithmetic can raise is
      [ZeroDivisionError]; [Exception_] stands for whatever the history
      collaborator raises. *)

From Stdlib Require Import ZArith QArith Qround Qabs Qminmax.
From Stdlib Require Import List String Bool Lia Lqa.
Import ListNotations.

Local Open Scope Z_scope.
Local Open Scope Q_scope.

(* ================================================================= *)
(** ** Python values *)

Inductive exn : Type :=
| ZeroDivisionError
| Exception_ (msg : string).

Inductive result (A : Type) : Type :=
| Ok (a : A)
| Raise (e : exn).

Arguments Ok {A} a.
Arguments Raise {A} e.

Definition bind {A B : Type} (m : result A) (k : A -> result B) : result B :=
  match m with
  | Ok a => k a
  | Raise e => Raise e
  end.

Notation "x <- m ;; k" := (bind m (fun x => k))
  (at level 61, m at next level, right associativity).

(** [a / b]: true division raises on a zero divisor. *)
Definition py_div (a b : Q) : result Q :=
  if Qeq_bool b 0 then Raise ZeroDivisionError else Ok (a / b).

(** [a < b] as a boolean. *)
Definition Qltb (a b : Q) : bool := negb (Qle_bool b a).

(** [min(a, b)]: the first argument is kept unless the second is
    strictly smaller. *)
Definition py_min (a b : Q) : Q := if Qltb b a then b else a.

(** [max(a, b)] on rationals and on integers: the first argument is kept
    unless the second is strictly greater. *)
Definition py_max (a b : Q) : Q := if Qltb a b then b else a.
Definition py_max_int (a b : Z) : Z := if (a <? b)%Z then b else a.

(** [round(x)] with one argument: the nearest integer, ties to even. *)
Definition py_round (x : Q) : Z :=
  let f := Qfloor x in
  match Qcompare (x - inject_Z f) (1 # 2) with
  | Lt => f
  | Gt => (f + 1)%Z
  | Eq => if Z.even f then f else (f + 1)%Z
  end.

(** Truth value of a string and of a number. *)
Definition truthy_str (s : string) : bool :=
  match s with
  | EmptyString => false
  | _ => true
  end.

Definition truthy_num (x : Q) : bool := negb (Qeq_bool x 0).

(* ================================================================= *)
(** ** Dictionaries *)

Section Dict.
Context {V : Type}.

Definition dict := list (string * V).

Definition keys (d : dict) : list string := map fst d.
Definition values (d : dict) : list V := map snd d.

Fixpoint dict_get (d : dict) (k : string) : option V :=
  match d with
  | [] => None
  | (k', v) :: rest => if String.eqb k' k then Some v else dict_get rest k
  end.

(** [k in d] *)
Definition dict_contains (d : dict) (k : string) : bool :=
  match dict_get d k with
  | Some _ => true
  | None => false
  end.

(** [d[k] = v]: an existing key keeps its position, a new key goes to
    the end. *)
Fixpoint dict_set (d : dict) (k : string) (v : V) : dict :=
  match d with
  | [] => [(k, v)]
  | (k', v') :: rest =>
      if String.eqb k' k then (k', v) :: rest
      else (k', v') :: dict_set rest k v
  end.

(** In-place change of the value stored under [k]. *)
Fixpoint dict_update (d : dict) (k : string) (f : V -> V) : dict :=
  match d with
  | [] => []
  | (k', v') :: rest =>
      if String.eqb k' k then (k', f v') :: rest
      else (k', v') :: dict_update rest k f
  end.
End Dict.

Arguments dict V : clear implicits.

(** [sum(xs)] starts from 0 and adds from the left. *)
Definition py_sum (xs : list Q) : Q := fold_left Qplus xs 0.

(** [x in ['QQQ', 'VOO', 'GLDM']] *)
Definition is_stock_symbol (symbol : string) : bool :=
  existsb (String.eqb symbol) ["QQQ"; "VOO"; "GLDM"]%string.

(* ================================================================= *)
(** ** Configuration *)

Record Portfolio : Type := {
  stock_weight : Q;
  crypto_weight : Q;
  stock_allocation : dict Q;
  crypto_allocation : dict Q
}.

Record Limits : Type := {
  weekly_usd_limit : Q;
  weekly_tao_limit : Q
}.

Record CrashConfig : Type := {
  stock_lookback_days : Z;
  crypto_lookback_days : Z;
  level1_threshold : Q;
  level1_multiplier : Q;
  level2_threshold : Q;
  level2_multiplier : Q;
  level3_threshold : Q;
  level3_multiplier : Q
}.

Record Config : Type := {
  portfolio : Portfolio;
  limits : Limits;
  crash_config : CrashConfig
}.

(* ================================================================= *)
(** ** Equity allocation: [_calculate_stock_allocation] *)

Module Stock.
Record line : Type := {
  amount : Q;
  ratio : Q;
  price : Q;
  shares : Z
}.
End Stock.

Definition stock_amounts (investments : dict Stock.line) : list Q :=
  map Stock.amount (values investments).

(** [sum(data['amount'] for data in investments.values())] *)
Definition total_cost (investments : dict Stock.line) : Q :=
  py_sum (stock_amounts investments).

(** [target_amount = budget * (ratio / total_allocation)] *)
Definition target_amount (budget total_allocation ratio : Q) : result Q :=
  q <- py_div ratio total_allocation ;;
  Ok (budget * q).

(** One symbol of the first pass: the line it gets. *)
Definition stock_line (budget total_allocation ratio price : Q)
  : result Stock.line :=
  target <- target_amount budget total_allocation ratio ;;
  target_shares <- py_div target price ;;
  let shares := py_max_int 1 (py_round target_shares) in
  let actual_amount := inject_Z shares * price in
  Ok {| Stock.amount := actual_amount;
        Stock.ratio := ratio;
        Stock.price := price;
        Stock.shares := shares |}.

(** The first [for] loop, over [allocations.items()]. *)
Fixpoint first_pass (budget total_allocation : Q) (prices : dict Q)
    (items : list (string * Q)) (investments : dict Stock.line)
  : result (dict Stock.line) :=
  match items with
  | [] => Ok investments
  | (symbol, ratio) :: rest =>
      match dict_get prices symbol with
      | Some p =>
          ln <- stock_line budget total_allocation ratio p ;;
          first_pass budget total_allocation prices rest
            (dict_set investments symbol ln)
      | None => first_pass budget total_allocation prices rest investments
      end
  end.

(** The inner [for] of the overflow loop: the search state is
    [(max_price_symbol, max_price)], starting from [(None, 0)]. *)
Definition search_step (st : option string * Q) (item : string * Stock.line)
  : option string * Q :=
  let '(symbol, data) := item in
  if (1 <? Stock.shares data)%Z && Qltb (snd st) (Stock.price data)
  then (Some symbol, Stock.price data)
  else st.

Definition find_max_price_symbol (investments : dict Stock.line)
  : option string * Q :=
  fold_left search_step investments (None, 0).

(** [shares -= 1] and the recomputed [amount] of one line. *)
Definition sell_one (data : Stock.line) : Stock.line :=
  let shares := (Stock.shares data - 1)%Z in
  {| Stock.amount := inject_Z shares * Stock.price data;
     Stock.ratio := Stock.ratio data;
     Stock.price := Stock.price data;
     Stock.shares := shares |}.

(** One turn of the [while] loop: [None] when the loop is left (the
    condition fails, or the [break]), otherwise the next state.
    [if max_price_symbol:] is the truth value of the found name. *)
Definition loop_iter (max_budget : Q) (investments : dict Stock.line)
  : option (dict Stock.line) :=
  if Qltb max_budget (total_cost investments) then
    match fst (find_max_price_symbol investments) with
    | Some symbol =>
        if truthy_str symbol
        then Some (dict_update investments symbol sell_one)
        else None
    | None => None
    end
  else None.

(** Number of units above one, over all lines: what the loop can still
    take away. *)
Definition excess (investments : dict Stock.line) : nat :=
  fold_right (fun data n => (Z.to_nat (Stock.shares data - 1) + n)%nat) 0%nat
    (values investments).

Fixpoint loop_turns (turns : nat) (max_budget : Q)
    (investments : dict Stock.line) : dict Stock.line :=
  match turns with
  | O => investments
  | S turns' =>
      match loop_iter max_budget investments with
      | Some investments' => loop_turns turns' max_budget investments'
      | None => investments
      end
  end.

(** The [while] loop.  Every turn that continues lowers [excess] by one,
    so [excess] turns are enough (lemma [overflow_loop_exits]). *)
Definition overflow_loop (max_budget : Q) (investments : dict Stock.line)
  : dict Stock.line :=
  loop_turns (excess investments) max_budget investments.

Definition _calculate_stock_allocation (cfg : Config) (budget : Q)
    (prices : dict Q) : result (dict Stock.line) :=
  let allocations := stock_allocation (portfolio cfg) in
  let total_allocation := py_sum (values allocations) in
  let max_budget := budget * (3 # 2) in
  investments <- first_pass budget total_allocation prices allocations [] ;;
  Ok (overflow_loop max_budget investments).

(* ================================================================= *)
(** ** Divisible-asset allocation: [_calculate_crypto_allocation] *)

Module Crypto.
Record line : Type := {
  amount : Q;
  ratio : Q;
  price : Q;
  quantity : Q
}.
End Crypto.

Fixpoint crypto_pass (budget : Q) (prices : dict Q)
    (items : list (string * Q)) (investments : dict Crypto.line)
  : result (dict Crypto.line) :=
  match items with
  | [] => Ok investments
  | (symbol, ratio) :: rest =>
      match dict_get prices symbol with
      | Some p =>
          let amount := budget * ratio in
          quantity <- py_div amount p ;;
          crypto_pass budget prices rest
            (dict_set investments symbol
               {| Crypto.amount := amount;
                  Crypto.ratio := ratio;
                  Crypto.price := p;
                  Crypto.quantity := quantity |})
      | None => crypto_pass budget prices rest investments
      end
  end.

Definition _calculate_crypto_allocation (cfg : Config) (budget : Q)
    (prices : dict Q) : result (dict Crypto.line) :=
  crypto_pass budget prices (crypto_allocation (portfolio cfg)) [].

(* ================================================================= *)
(** ** The weekly plan: [calculate_weekly_investment] *)

Record Plan : Type := {
  stock_total : Q;
  crypto_total : Q;
  crypto_tao_amount : Q;
  stocks : dict Stock.line;
  cryptos : dict Crypto.line;
  total_budget : Q
}.

Definition calculate_weekly_investment (cfg : Config)
    (stock_prices crypto_prices : dict Q) (tao_price : Q) : result Plan :=
  let weekly_usd_limit := weekly_usd_limit (limits cfg) in
  let weekly_tao_limit := weekly_tao_limit (limits cfg) in
  stock_investments <-
    _calculate_stock_allocation cfg weekly_usd_limit stock_prices ;;
  let actual_stock_cost := total_cost stock_investments in
  let stock_weight := stock_weight (portfolio cfg) in
  let crypto_weight := crypto_weight (portfolio cfg) in
  weight_ratio <- py_div crypto_weight stock_weight ;;
  let target_crypto_budget := actual_stock_cost * weight_ratio in
  let tao_usd_value := weekly_tao_limit * tao_price in
  let actual_crypto_budget := py_min target_crypto_budget tao_usd_value in
  crypto_investments <-
    _calculate_crypto_allocation cfg actual_crypto_budget crypto_prices ;;
  tao_amount <- py_div actual_crypto_budget tao_price ;;
  Ok {| stock_total := actual_stock_cost;
        crypto_total := actual_crypto_budget;
        crypto_tao_amount := tao_amount;
        stocks := stock_investments;
        cryptos := crypto_investments;
        total_budget := actual_stock_cost + actual_crypto_budget |}.

(* ================================================================= *)
(** ** Rebalancing: [calculate_rebalancing_adjustment] *)

(** [d.get(k, 0)] *)
Definition dict_get0 (d : dict Q) (k : string) : Q :=
  match dict_get d k with
  | Some v => v
  | None => 0
  end.

(** The first [for] loop: the corrective amounts. *)
Fixpoint correction_pass (current_portfolio : dict Q)
    (total_portfolio_value weekly_budget : Q)
    (items : list (string * Q)) (adjustments : dict Q) : result (dict Q) :=
  match items with
  | [] => Ok adjustments
  | (symbol, target_ratio) :: rest =>
      let target_value := total_portfolio_value * target_ratio in
      let current_value := dict_get0 current_portfolio symbol in
      if Qltb 0 total_portfolio_value then
        current_ratio <-
          py_div current_value (total_portfolio_value - weekly_budget) ;;
        let deviation := Qabs (current_ratio - target_ratio) in
        if Qltb (5 # 100) deviation then
          let needed_adjustment := target_value - current_value in
          let max_adjustment := weekly_budget * (1 # 2) in
          let adjustment :=
            py_min max_adjustment (py_max 0 needed_adjustment) in
          correction_pass current_portfolio total_portfolio_value
            weekly_budget rest (dict_set adjustments symbol adjustment)
        else
          correction_pass current_portfolio total_portfolio_value
            weekly_budget rest adjustments
      else
        correction_pass current_portfolio total_portfolio_value
          weekly_budget rest adjustments
  end.

(** [adjustments[symbol] = adjustments.get(symbol, 0) + budget * ratio]
    over the target allocation. *)
Fixpoint distribute (budget : Q) (items : list (string * Q))
    (adjustments : dict Q) : dict Q :=
  match items with
  | [] => adjustments
  | (symbol, target_ratio) :: rest =>
      let base_amount := budget * target_ratio in
      distribute budget rest
        (dict_set adjustments symbol
           (dict_get0 adjustments symbol + base_amount))
  end.

(** [adjustments[symbol] = weekly_budget * target_ratio] over the target
    allocation. *)
Fixpoint plain_distribution (weekly_budget : Q) (items : list (string * Q))
    (adjustments : dict Q) : dict Q :=
  match items with
  | [] => adjustments
  | (symbol, target_ratio) :: rest =>
      plain_distribution weekly_budget rest
        (dict_set adjustments symbol (weekly_budget * target_ratio))
  end.

Definition calculate_rebalancing_adjustment (current_portfolio : dict Q)
    (target_allocation : dict Q) (weekly_budget : Q) : result (dict Q) :=
  let total_portfolio_value :=
    py_sum (values current_portfolio) + weekly_budget in
  adjustments <-
    correction_pass current_portfolio total_portfolio_value weekly_budget
      target_allocation [] ;;
  match adjustments with
  | _ :: _ =>
      let total_adjustments := py_sum (values adjustments) in
      let remaining_budget := weekly_budget - total_adjustments in
      if Qltb 0 remaining_budget
      then Ok (distribute remaining_budget target_allocation adjustments)
      else Ok adjustments
  | [] => Ok (plain_distribution weekly_budget target_allocation [])
  end.

(* ================================================================= *)
(** ** Crash detection *)

(** The history collaborator: [history_manager.get_average_cost(symbol)]
    returns an average cost, returns [None], or raises. *)
Definition HistoryManager : Type := string -> result (option Q).

(** [_get_average_price]: the [try] turns any exception of the lookup
    into [None] (after printing a message, not modelled); [days] is not
    used by the body. *)
Definition _get_average_price (symbol : string) (current_price : Q)
    (history_manager : HistoryManager) (days : Z) : option Q :=
  match history_manager symbol with
  | Ok avg_cost =>
      match avg_cost with
      | Some c =>
          if truthy_num c && Qltb 0 c then Some c
          else Some (current_price * (115 # 100))
      | None => Some (current_price * (115 # 100))
      end
  | Raise _ => None
  end.

Definition _determine_crash_level (cfg : Config) (drop_percent : Q) : Z * Q :=
  let cc := crash_config cfg in
  if Qle_bool (level3_threshold cc) drop_percent then
    (3%Z, level3_multiplier cc)
  else if Qle_bool (level2_threshold cc) drop_percent then
    (2%Z, level2_multiplier cc)
  else if Qle_bool (level1_threshold cc) drop_percent then
    (1%Z, level1_multiplier cc)
  else (0%Z, 1).

Definition _get_base_allocation (cfg : Config) (symbol : string) : Q :=
  let p := portfolio cfg in
  match dict_get (stock_allocation p) symbol with
  | Some r => r * stock_weight p
  | None =>
      match dict_get (crypto_allocation p) symbol with
      | Some r => r * crypto_weight p
      | None => 0
      end
  end.

Definition _get_weekly_budget (cfg : Config) (symbol : string) : Q :=
  if is_stock_symbol symbol then weekly_usd_limit (limits cfg)
  else weekly_tao_limit (limits cfg) * 500.

Record Opportunity : Type := {
  current_price : Q;
  avg_price : Q;
  drop_percent : Q;
  crash_level : Z;
  multiplier : Q;
  base_amount : Q;
  suggested_amount : Q
}.

(** The body of the [for] loop of [detect_crash_opportunities] for one
    symbol: the entry it stores, if any. *)
Definition assess (cfg : Config) (history_manager : HistoryManager)
    (symbol : string) (current_price : Q) : option Opportunity :=
  let lookback_days :=
    if is_stock_symbol symbol
    then stock_lookback_days (crash_config cfg)
    else crypto_lookback_days (crash_config cfg) in
  match _get_average_price symbol current_price history_manager
          lookback_days with
  | Some avg_price =>
      if truthy_num avg_price && Qltb 0 avg_price then
        let drop_percent := (avg_price - current_price) / avg_price in
        let '(crash_level, multiplier) :=
          _determine_crash_level cfg drop_percent in
        if (0 <? crash_level)%Z then
          let base_allocation := _get_base_allocation cfg symbol in
          let weekly_budget := _get_weekly_budget cfg symbol in
          let base_amount := weekly_budget * base_allocation in
          let suggested_amount := base_amount * multiplier in
          Some {| current_price := current_price;
                  avg_price := avg_price;
                  drop_percent := drop_percent * 100;
                  crash_level := crash_level;
                  multiplier := multiplier;
                  base_amount := base_amount;
                  suggested_amount := suggested_amount |}
        else None
      else None
  | None => None
  end.

Fixpoint detect_pass (cfg : Config) (history_manager : HistoryManager)
    (items : list (string * Q)) (opportunities : dict Opportunity)
  : dict Opportunity :=
  match items with
  | [] => opportunities
  | (symbol, current_price) :: rest =>
      match assess cfg history_manager symbol current_price with
      | Some o =>
          detect_pass cfg history_manager rest
            (dict_set opportunities symbol o)
      | None => detect_pass cfg history_manager rest opportunities
      end
  end.

Definition detect_crash_opportunities (cfg : Config)
    (current_prices : dict Q) (history_manager : HistoryManager)
  : dict Opportunity :=
  detect_pass cfg history_manager current_prices [].

(* ================================================================= *)
(** ** Simulation: [simulate_investment_outcome] *)

Module Perf.
Record t : Type := {
  initial_value : Q;
  final_value : Q;
  return_ : Q;
  return_percent : Q
}.
End Perf.






(* ================================================================= *)
(** ** Purchase history: [history_manager.py] *)

(** A purchase and an investment record are JSON objects; a field that
    may be absent is an [option], and fields that the functions below do
    not read are left out.  [History.data] is the list under
    [self.data['investments']]. *)
Module History.

Record Purchase : Type := {
  symbol : option string;
  quantity : option Q;
  price : option Q;
  total : option Q
}.

Record Investment : Type := {
  id : option Z;
  date : option string;
  stocks : option (list Purchase);
  cryptos : option (list Purchase);
  total_invested : option Q
}.

Definition data : Type := list Investment.

(** [d.get(key, 0)] and [d.get(key, [])] on a field. *)
Definition num (field : option Q) : Q :=
  match field with
  | Some v => v
  | None => 0
  end.

Definition purchases (field : option (list Purchase)) : list Purchase :=
  match field with
  | Some l => l
  | None => []
  end.

(** [p.get('symbol') == symbol] *)
Definition is_symbol (p : Purchase) (s : string) : bool :=
  match symbol p with
  | Some s' => String.eqb s' s
  | None => false
  end.

(** One inner [for] of [get_average_cost]; the state is
    [(total_cost, total_quantity)]. *)
Definition cost_step (s : string) (st : Q * Q) (p : Purchase) : Q * Q :=
  if is_symbol p s
  then (fst st + num (total p), snd st + num (quantity p))
  else st.

Definition cost_of_investment (s : string) (st : Q * Q) (inv : Investment)
  : Q * Q :=
  fold_left (cost_step s) (purchases (cryptos inv))
    (fold_left (cost_step s) (purchases (stocks inv)) st).

Definition cost_totals (d : data) (s : string) : Q * Q :=
  fold_left (cost_of_investment s) d (0, 0).

Definition get_average_cost (d : data) (s : string) : option Q :=
  let '(total_cost, total_quantity) := cost_totals d s in
  if Qltb 0 total_quantity then Some (total_cost / total_quantity)
  else None.

(** [get_portfolio_composition]: the holdings per symbol.  While the
    records are read an entry has a quantity, a total cost and the type
    of the list that mentioned the symbol first; the last loop adds the
    average cost. *)
Record Position : Type := {
  pos_quantity : Q;
  pos_total_cost : Q;
  pos_type : string
}.

Record Holding : Type := {
  held_quantity : Q;
  held_total_cost : Q;
  held_type : string;
  avg_cost : Q
}.

(** One inner [for]: [kind] is ['stock'] or ['crypto']. *)
Definition hold_step (kind : string) (holdings : dict Position)
    (p : Purchase) : dict Position :=
  let s := match symbol p with Some s => s | None => EmptyString end in
  if truthy_str s then
    let h := match dict_get holdings s with
             | Some h => h
             | None => {| pos_quantity := 0; pos_total_cost := 0;
                          pos_type := kind |}
             end in
    dict_set holdings s
      {| pos_quantity := pos_quantity h + num (quantity p);
         pos_total_cost := pos_total_cost h + num (total p);
         pos_type := pos_type h |}
  else holdings.

Definition hold_investment (holdings : dict Position) (inv : Investment)
  : dict Position :=
  fold_left (hold_step "crypto") (purchases (cryptos inv))
    (fold_left (hold_step "stock") (purchases (stocks inv)) holdings).

Definition close_position (h : Position) : Holding :=
  {| held_quantity := pos_quantity h;
     held_total_cost := pos_total_cost h;
     held_type := pos_type h;
     avg_cost := if Qltb 0 (pos_quantity h)
                 then pos_total_cost h / pos_quantity h
                 else 0 |}.

Definition get_portfolio_composition (d : data) : dict Holding :=
  map (fun kv => (fst kv, close_position (snd kv)))
    (fold_left hold_investment d []).

(** The purchases of a history, in reading order, and those of one
    symbol. *)
Definition all_purchases (d : data) : list Purchase :=
  flat_map (fun inv => purchases (stocks inv) ++ purchases (cryptos inv)) d.

Definition matching (d : data) (s : string) : list Purchase :=
  filter (fun p => is_symbol p s) (all_purchases d).

End History.


(* ================================================================= *)
(** ** A sample configuration and run *)

Definition sample_config : Config := {|
  portfolio := {|
    stock_weight := 6 # 10;
    crypto_weight := 4 # 10;
    stock_allocation :=
      [("QQQ", 5 # 10); ("VOO", 3 # 10); ("GLDM", 2 # 10)]%string;
    crypto_allocation :=
      [("BTC", 4 # 10); ("ETH", 3 # 10); ("SOL", 2 # 10);
       ("BNB", 1 # 10)]%string |};
  limits := {| weekly_usd_limit := 2000; weekly_tao_limit := 4 |};
  crash_config := {|
    stock_lookback_days := 30;
    crypto_lookback_days := 7;
    level1_threshold := 10 # 100;
    level1_multiplier := 15 # 10;
    level2_threshold := 20 # 100;
    level2_multiplier := 2;
    level3_threshold := 30 # 100;
    level3_multiplier := 3 |}
|}.

Definition sample_stock_prices : dict Q :=
  [("QQQ", 350); ("VOO", 420); ("GLDM", 36)]%string.

Definition sample_crypto_prices : dict Q :=
  [("BTC", 45000); ("BNB", 280); ("SOL", 98); ("ETH", 2800)]%string.

(* ================================================================= *)
(** * Vocabulary of the properties *)

(** State invariants of [investments]. *)
Definition units_ge1 (investments : dict Stock.line) : Prop :=
  Forall (fun kv => (1 <= Stock.shares (snd kv))%Z) investments.

Definition one_unit_each (investments : dict Stock.line) : Prop :=
  Forall (fun kv => Stock.shares (snd kv) = 1%Z) investments.

Definition prices_positive (investments : dict Stock.line) : Prop :=
  Forall (fun kv => 0 < Stock.price (snd kv)) investments.

Definition names_nonempty {V : Type} (d : dict V) : Prop :=
  Forall (fun k => k <> EmptyString) (keys d).


(** Every configured symbol that has a price has a strictly positive
    one. *)
Definition priced_positive (prices allocations : dict Q) : bool :=
  forallb (fun symbol =>
             match dict_get prices symbol with
             | Some p => Qltb 0 p
             | None => true
             end) (keys allocations).

(** Every configured symbol has a price, and a strictly positive one. *)
Definition fully_priced (prices allocations : dict Q) : bool :=
  forallb (fun symbol =>
             match dict_get prices symbol with
             | Some p => Qltb 0 p
             | None => false
             end) (keys allocations).

(** No configured symbol is the empty string. *)
Definition all_named (allocations : dict Q) : bool :=
  forallb truthy_str (keys allocations).

(** A small budget against the sample prices, and a two-symbol
    configuration on which the overflow loop runs. *)
Definition with_usd_limit (cfg : Config) (limit : Q) : Config :=
  {| portfolio := portfolio cfg;
     limits := {| weekly_usd_limit := limit;
                  weekly_tao_limit := weekly_tao_limit (limits cfg) |};
     crash_config := crash_config cfg |}.

Definition with_stock_allocation (cfg : Config) (allocations : dict Q)
  : Config :=
  {| portfolio := {| stock_weight := stock_weight (portfolio cfg);
                     crypto_weight := crypto_weight (portfolio cfg);
                     stock_allocation := allocations;
                     crypto_allocation := crypto_allocation (portfolio cfg) |};
     limits := limits cfg;
     crash_config := crash_config cfg |}.

Definition two_symbol_config : Config :=
  with_stock_allocation sample_config
    [("VOO", 1 # 2); ("GLDM", 1 # 2)]%string.

Definition units_of (investments : dict Stock.line) : list (string * Z) :=
  map (fun kv => (fst kv, Stock.shares (snd kv))) investments.




(** The denominator in the words of the specification: the sum of the
    configured ratios of the symbols present in the price map. *)
Definition ratio_sum_of_priced (prices allocations : dict Q) : Q :=
  py_sum (values (filter (fun kv => dict_contains prices (fst kv))
                    allocations)).



Definition without_voo : dict Q := [("QQQ", 350); ("GLDM", 36)]%string.
Definition without_eth : dict Q :=
  [("BTC", 45000); ("BNB", 280); ("SOL", 98)]%string.

Definition all_zero (current_portfolio : dict Q) : Prop :=
  Forall (fun x => x == 0) (values current_portfolio).

Definition no_holdings : dict Q := [("QQQ", 0); ("BTC", 0)]%string.
Definition even_targets : dict Q := [("QQQ", 1 # 2); ("BTC", 1 # 2)]%string.

(** Threshold and multiplier of a tier. *)
Definition threshold_of (cfg : Config) (tier : Z) : Q :=
  let cc := crash_config cfg in
  if (tier =? 1)%Z then level1_threshold cc
  else if (tier =? 2)%Z then level2_threshold cc
  else level3_threshold cc.

Definition multiplier_of (cfg : Config) (tier : Z) : Q :=
  let cc := crash_config cfg in
  if (tier =? 0)%Z then 1
  else if (tier =? 1)%Z then level1_multiplier cc
  else if (tier =? 2)%Z then level2_multiplier cc
  else level3_multiplier cc.

(** A lookup that yields nothing usable: [None], or a cost that is zero
    or negative. *)
Definition no_data (r : result (option Q)) : Prop :=
  r = Ok None \/ exists c, r = Ok (Some c) /\ c <= 0.

Definition failing_history : HistoryManager :=
  fun _ => Raise (Exception_ "history unavailable").

Definition empty_history : HistoryManager := fun _ => Ok None.

Definition btc_only : dict Q := [("BTC", 45000)]%string.




(** A recorded history: QQQ bought twice, at 400 and at 300; BTC never
    bought. *)
Definition qqq_at (units_bought unit_price : Q) : History.Purchase :=
  {| History.symbol := Some "QQQ"%string;
     History.quantity := Some units_bought;
     History.price := Some unit_price;
     History.total := Some (units_bought * unit_price) |}.

Definition sample_history : History.data :=
  [ {| History.id := Some 1%Z;
       History.date := Some "2024-01-08"%string;
       History.stocks := Some [qqq_at 2 400];
       History.cryptos := Some [];
       History.total_invested := Some 800 |};
    {| History.id := Some 2%Z;
       History.date := Some "2024-01-15"%string;
       History.stocks := Some [qqq_at 1 300];
       History.cryptos := None;
       History.total_invested := Some 300 |} ].


(** Adding one matching purchase to the running totals. *)
Definition add_purchase (st : Q * Q) (p : History.Purchase) : Q * Q :=
  (fst st + History.num (History.total p),
   snd st + History.num (History.quantity p)).


(** The holdings entry of a symbol mirrors the running totals of
    [get_average_cost]. *)
Definition mirrors (holdings : dict History.Position) (s : string)
    (st : Q * Q) : Prop :=
  match dict_get holdings s with
  | Some h => st = (History.pos_total_cost h, History.pos_quantity h)
  | None => st = (0, 0)
  end.

(* ================================================================= *)
(** * Properties *)

(** ** Comparisons and arithmetic helpers *)

Lemma Qltb_lt (a b : Q) : Qltb a b = true <-> a < b.
Proof.
  unfold Qltb. rewrite negb_true_iff.
  split; intro H.
  - apply Qnot_le_lt. intro Hle.
    apply Qle_bool_iff in Hle. congruence.
  - destruct (Qle_bool b a) eqn:E; [|reflexivity].
    apply Qle_bool_iff in E. exfalso. exact (Qlt_not_le _ _ H E).
Qed.

Lemma Qltb_ge (a b : Q) : Qltb a b = false <-> b <= a.
Proof.
  unfold Qltb. rewrite negb_false_iff. apply Qle_bool_iff.
Qed.

Lemma py_max_int_lower (a b : Z) : (a <= py_max_int a b)%Z.
Proof.
  unfold py_max_int. destruct (a <? b)%Z eqn:E; [|lia].
  apply Z.ltb_lt in E. lia.
Qed.

Lemma py_min_le_r (a b : Q) : py_min a b <= b.
Proof.
  unfold py_min. destruct (Qltb b a) eqn:E.
  - apply Qle_refl.
  - now apply Qltb_ge in E.
Qed.

Lemma py_min_l (a b : Q) : a < b -> py_min a b = a.
Proof.
  intro H. unfold py_min.
  destruct (Qltb b a) eqn:E; [|reflexivity].
  apply Qltb_lt in E. exfalso. exact (Qlt_irrefl _ (Qlt_trans _ _ _ H E)).
Qed.

Lemma py_div_ok (a b : Q) : ~ b == 0 -> py_div a b = Ok (a / b).
Proof.
  intro H. unfold py_div.
  destruct (Qeq_bool b 0) eqn:E; [|reflexivity].
  apply Qeq_bool_iff in E. contradiction.
Qed.

Lemma py_div_zero (a b : Q) : b == 0 -> py_div a b = Raise ZeroDivisionError.
Proof.
  intro H. unfold py_div.
  apply Qeq_bool_iff in H. now rewrite H.
Qed.

Lemma bind_ok {A B : Type} (m : result A) (k : A -> result B) (b : B) :
  bind m k = Ok b -> exists a, m = Ok a /\ k a = Ok b.
Proof.
  destruct m as [a|e]; simpl; intro H; [eauto | discriminate].
Qed.

(** ** Dictionary lemmas *)

Section DictFacts.
Context {V : Type}.
Implicit Types (d : dict V) (k : string) (v : V).

Lemma keys_dict_update d k f : keys (dict_update d k f) = keys d.
Proof.
  unfold keys.
  induction d as [|[k' v'] d IH]; simpl; [reflexivity|].
  destruct (String.eqb k' k); simpl; [reflexivity|].
  now rewrite IH.
Qed.

Lemma in_keys_dict_set d k v k0 :
  In k0 (keys (dict_set d k v)) <-> k0 = k \/ In k0 (keys d).
Proof.
  unfold keys.
  induction d as [|[k' v'] d IH]; simpl.
  - intuition congruence.
  - destruct (String.eqb k' k) eqn:E; simpl.
    + apply String.eqb_eq in E. subst k'. intuition congruence.
    + rewrite IH. intuition.
Qed.

Lemma nodup_keys_dict_set d k v :
  NoDup (keys d) -> NoDup (keys (dict_set d k v)).
Proof.
  induction d as [|[k' v'] d IH]; simpl; intro H.
  - constructor; [intros []|constructor].
  - inversion H as [|? ? Hnin Hnd]; subst.
    destruct (String.eqb k' k) eqn:E; simpl.
    + now constructor.
    + constructor; [|now apply IH].
      intro Hin. apply in_keys_dict_set in Hin.
      apply String.eqb_neq in E.
      destruct Hin as [->|Hin]; [congruence | contradiction].
Qed.

Lemma keys_dict_set_fresh d k v :
  ~ In k (keys d) -> keys (dict_set d k v) = keys d ++ [k].
Proof.
  unfold keys.
  induction d as [|[k' v'] d IH]; simpl; intro H; [reflexivity|].
  destruct (String.eqb k' k) eqn:E.
  - apply String.eqb_eq in E. subst. tauto.
  - simpl. rewrite IH; [reflexivity | tauto].
Qed.

Lemma Forall_dict_set (P : string * V -> Prop) d k v :
  Forall P d -> P (k, v) -> Forall P (dict_set d k v).
Proof.
  intros Hd Hk.
  induction d as [|[k' v'] d IH]; simpl.
  - now constructor.
  - inversion Hd; subst.
    destruct (String.eqb k' k) eqn:E.
    + apply String.eqb_eq in E. subst. now constructor.
    + constructor; auto.
Qed.

Lemma Forall_dict_update (P : string * V -> Prop) d k f :
  Forall P d -> (forall k' v', P (k', v') -> P (k', f v')) ->
  Forall P (dict_update d k f).
Proof.
  intros Hd Hf.
  induction d as [|[k' v'] d IH]; simpl; [constructor|].
  inversion Hd; subst.
  destruct (String.eqb k' k); constructor; auto.
Qed.

Lemma dict_get_in d k v : dict_get d k = Some v -> In (k, v) d.
Proof.
  induction d as [|[k' v'] d IH]; simpl; [discriminate|].
  destruct (String.eqb k' k) eqn:E; intro H.
  - apply String.eqb_eq in E. left. congruence.
  - right. auto.
Qed.

Lemma in_dict_get d k v :
  NoDup (keys d) -> In (k, v) d -> dict_get d k = Some v.
Proof.
  induction d as [|[k' v'] d IH]; simpl; intros Hnd Hin; [contradiction|].
  inversion Hnd as [|? ? Hnin Hnd']; subst.
  destruct Hin as [Heq|Hin].
  - inversion Heq; subst. now rewrite String.eqb_refl.
  - destruct (String.eqb k' k) eqn:E; [|auto].
    apply String.eqb_eq in E. subst k'.
    exfalso. apply Hnin. change k with (fst (k, v)). now apply in_map.
Qed.

Lemma dict_get_none d k : dict_get d k = None <-> ~ In k (keys d).
Proof.
  unfold keys.
  induction d as [|[k' v'] d IH]; simpl; [tauto|].
  destruct (String.eqb k' k) eqn:E.
  - apply String.eqb_eq in E. subst. split; [discriminate | tauto].
  - apply String.eqb_neq in E. rewrite IH. tauto.
Qed.

Lemma dict_contains_in d k : dict_contains d k = true <-> In k (keys d).
Proof.
  unfold dict_contains.
  destruct (dict_get d k) eqn:E.
  - split; [intros _|reflexivity].
    apply dict_get_in in E. change k with (fst (k, v)). now apply in_map.
  - apply dict_get_none in E. split; [discriminate | tauto].
Qed.
End DictFacts.

(** ** The overflow loop *)

(** The search keeps the running maximum: its result bounds the price of
    every line with more than one unit, and a found name is a line of
    the dictionary with more than one unit and that price. *)
Lemma search_fold_spec (l : dict Stock.line) :
  forall (ms : option string) (mp : Q),
    let r := fold_left search_step l (ms, mp) in
    (forall s d, In (s, d) l -> (1 < Stock.shares d)%Z ->
                 mp < Stock.price d -> Stock.price d <= snd r)
    /\ (r = (ms, mp)
        \/ exists s d, In (s, d) l /\ fst r = Some s
                       /\ snd r = Stock.price d
                       /\ (1 < Stock.shares d)%Z /\ mp < Stock.price d).
Proof.
  induction l as [|[s0 d0] l IH]; intros ms mp; simpl.
  - split; [intros ? ? []|now left].
  - unfold search_step at 2. simpl.
    destruct ((1 <? Stock.shares d0)%Z && Qltb mp (Stock.price d0)) eqn:E.
    + apply andb_true_iff in E. destruct E as [Hs Hp].
      apply Z.ltb_lt in Hs. apply Qltb_lt in Hp.
      destruct (IH (Some s0) (Stock.price d0)) as (Hall & Hfound).
      assert (Hle : Stock.price d0 <=
                    snd (fold_left search_step l (Some s0, Stock.price d0))).
      { destruct Hfound as [->|(s & d & _ & _ & -> & _ & Hlt)].
        - apply Qle_refl.
        - now apply Qlt_le_weak. }
      split.
      * intros s d [Heq|Hin] Hsh Hmp; [inversion Heq; subst; exact Hle|].
        destruct (Qlt_le_dec (Stock.price d0) (Stock.price d)) as [Hlt|Hge].
        -- eapply Hall; eauto.
        -- eapply Qle_trans; eauto.
      * right. destruct Hfound as [Hr|(s & d & Hin & Hfst & Hsnd & Hsh & Hlt)].
        -- exists s0, d0. rewrite Hr. simpl. repeat split; auto.
        -- exists s, d. repeat split; auto.
           eapply Qlt_trans; eauto.
    + destruct (IH ms mp) as (Hall & Hfound).
      split.
      * intros s d [Heq|Hin] Hsh Hmp; [|eapply Hall; eauto].
        inversion Heq; subst.
        apply andb_false_iff in E. destruct E as [E|E].
        -- apply Z.ltb_ge in E. lia.
        -- apply Qltb_ge in E. exfalso. exact (Qlt_not_le _ _ Hmp E).
      * destruct Hfound as [Hfst|(s & d & Hin & Hrest)]; [now left|].
        right. exists s, d. split; [now right | exact Hrest].
Qed.

(** What a successful search returns: a line with more than one unit and
    a positive price, the highest among the lines with more than one
    unit. *)
Lemma find_max_price_symbol_some (investments : dict Stock.line) symbol :
  fst (find_max_price_symbol investments) = Some symbol ->
  exists data,
    In (symbol, data) investments
    /\ (1 < Stock.shares data)%Z
    /\ 0 < Stock.price data
    /\ forall s d, In (s, d) investments -> (1 < Stock.shares d)%Z ->
                   Stock.price d <= Stock.price data.
Proof.
  unfold find_max_price_symbol. intro H.
  destruct (search_fold_spec investments None 0) as (Hall & [Hr|Hfound]).
  - rewrite Hr in H. discriminate.
  - destruct Hfound as (s & d & Hin & Hfst & Hsnd & Hsh & Hlt).
    rewrite Hfst in H. inversion H; subst s.
    exists d. repeat split; auto.
    intros s' d' Hin' Hsh'. rewrite <- Hsnd.
    destruct (Qlt_le_dec 0 (Stock.price d')) as [Hpos|Hneg].
    + eapply Hall; eauto.
    + rewrite Hsnd. eapply Qle_trans; [exact Hneg | now apply Qlt_le_weak].
Qed.

(** A failed search: no line with more than one unit has a positive
    price. *)
Lemma find_max_price_symbol_none (investments : dict Stock.line) :
  fst (find_max_price_symbol investments) = None ->
  forall s d, In (s, d) investments -> (1 < Stock.shares d)%Z ->
              Stock.price d <= 0.
Proof.
  unfold find_max_price_symbol. intros H s d Hin Hsh.
  destruct (search_fold_spec investments None 0) as (Hall & [Hr|Hfound]).
  - destruct (Qlt_le_dec 0 (Stock.price d)) as [Hpos|Hneg]; [|exact Hneg].
    specialize (Hall s d Hin Hsh Hpos). now rewrite Hr in Hall.
  - destruct Hfound as (s' & d' & _ & Hfst & _).
    rewrite Hfst in H. discriminate.
Qed.

(** Selling one unit of a line that has more than one. *)
Lemma excess_sell_one (investments : dict Stock.line) symbol data :
  dict_get investments symbol = Some data -> (1 < Stock.shares data)%Z ->
  S (excess (dict_update investments symbol sell_one)) = excess investments.
Proof.
  unfold excess, values.
  induction investments as [|[k v] l IH]; simpl; [discriminate|].
  destruct (String.eqb k symbol); intros Hget Hsh; simpl.
  - inversion Hget; subst. lia.
  - rewrite <- (IH Hget Hsh). lia.
Qed.


Lemma units_ge1_sell_one (investments : dict Stock.line) symbol data :
  units_ge1 investments ->
  dict_get investments symbol = Some data -> (1 < Stock.shares data)%Z ->
  units_ge1 (dict_update investments symbol sell_one).
Proof.
  unfold units_ge1.
  induction investments as [|[k v] l IH]; simpl; [discriminate|].
  intros Hall Hget Hsh. inversion Hall; subst.
  destruct (String.eqb k symbol); constructor; simpl in *; auto.
  inversion Hget; subst. lia.
Qed.

(** A turn that continues: what it did. *)
Lemma loop_iter_some (max_budget : Q) (investments investments' : dict Stock.line) :
  NoDup (keys investments) ->
  loop_iter max_budget investments = Some investments' ->
  max_budget < total_cost investments
  /\ exists symbol data,
      dict_get investments symbol = Some data
      /\ (1 < Stock.shares data)%Z
      /\ (forall s d, In (s, d) investments -> (1 < Stock.shares d)%Z ->
                      Stock.price d <= Stock.price data)
      /\ investments' = dict_update investments symbol sell_one.
Proof.
  unfold loop_iter. intros Hnd H.
  destruct (Qltb max_budget (total_cost investments)) eqn:Hc; [|discriminate].
  apply Qltb_lt in Hc. split; [exact Hc|].
  destruct (fst (find_max_price_symbol investments)) as [symbol|] eqn:Hf;
    [|discriminate].
  destruct (truthy_str symbol); [|discriminate].
  inversion H; subst investments'.
  destruct (find_max_price_symbol_some _ _ Hf) as (data & Hin & Hsh & _ & Hmax).
  exists symbol, data. repeat split; auto.
  now apply in_dict_get.
Qed.

(** [excess] turns are enough: the loop is left by its own test. *)
Lemma loop_turns_exits (max_budget : Q) :
  forall (n : nat) (investments : dict Stock.line),
    NoDup (keys investments) -> (excess investments <= n)%nat ->
    loop_iter max_budget (loop_turns n max_budget investments) = None.
Proof.
  induction n as [|n IH]; intros investments Hnd Hex; simpl.
  - destruct (loop_iter max_budget investments) as [inv'|] eqn:E;
      [|reflexivity].
    destruct (loop_iter_some _ _ _ Hnd E) as (_ & s & d & Hget & Hsh & _ & _).
    pose proof (excess_sell_one _ _ _ Hget Hsh). lia.
  - destruct (loop_iter max_budget investments) as [inv'|] eqn:E;
      [|exact E].
    destruct (loop_iter_some _ _ _ Hnd E) as (_ & s & d & Hget & Hsh & _ & ->).
    apply IH.
    + now rewrite keys_dict_update.
    + pose proof (excess_sell_one _ _ _ Hget Hsh). lia.
Qed.

Lemma overflow_loop_exits (max_budget : Q) (investments : dict Stock.line) :
  NoDup (keys investments) ->
  loop_iter max_budget (overflow_loop max_budget investments) = None.
Proof.
  intro Hnd. unfold overflow_loop. now apply loop_turns_exits.
Qed.

(** Invariants carried through the turns. *)
Lemma loop_turns_invariant (P : string * Stock.line -> Prop) (max_budget : Q) :
  (forall k v, P (k, v) -> P (k, sell_one v)) ->
  forall (n : nat) (investments : dict Stock.line),
    Forall P investments -> Forall P (loop_turns n max_budget investments).
Proof.
  intros HP. induction n as [|n IH]; intros investments H; simpl; [exact H|].
  unfold loop_iter.
  destruct (Qltb max_budget (total_cost investments)); [|exact H].
  destruct (fst (find_max_price_symbol investments)) as [symbol|]; [|exact H].
  destruct (truthy_str symbol); [|exact H].
  apply IH. now apply Forall_dict_update.
Qed.

Lemma loop_turns_keys (max_budget : Q) :
  forall (n : nat) (investments : dict Stock.line),
    keys (loop_turns n max_budget investments) = keys investments.
Proof.
  induction n as [|n IH]; intros investments; simpl; [reflexivity|].
  unfold loop_iter.
  destruct (Qltb max_budget (total_cost investments)); [|reflexivity].
  destruct (fst (find_max_price_symbol investments)) as [symbol|];
    [|reflexivity].
  destruct (truthy_str symbol); [|reflexivity].
  rewrite IH. apply keys_dict_update.
Qed.

Lemma loop_turns_units_ge1 (max_budget : Q) :
  forall (n : nat) (investments : dict Stock.line),
    NoDup (keys investments) -> units_ge1 investments ->
    units_ge1 (loop_turns n max_budget investments).
Proof.
  induction n as [|n IH]; intros investments Hnd H; simpl; [exact H|].
  destruct (loop_iter max_budget investments) as [inv'|] eqn:E; [|exact H].
  destruct (loop_iter_some _ _ _ Hnd E) as (_ & s & d & Hget & Hsh & _ & ->).
  apply IH.
  - now rewrite keys_dict_update.
  - eapply units_ge1_sell_one; eauto.
Qed.

(** The state in which the loop is left. *)
Lemma loop_iter_none (max_budget : Q) (investments : dict Stock.line) :
  units_ge1 investments -> prices_positive investments ->
  names_nonempty investments ->
  loop_iter max_budget investments = None ->
  total_cost investments <= max_budget \/ one_unit_each investments.
Proof.
  unfold loop_iter. intros Hu Hp Hn H.
  destruct (Qltb max_budget (total_cost investments)) eqn:Hc.
  2:{ left. now apply Qltb_ge in Hc. }
  right.
  assert (Hno : forall s d, In (s, d) investments ->
                            ~ (1 < Stock.shares d)%Z).
  { intros s d Hin Hsh.
    destruct (fst (find_max_price_symbol investments)) as [symbol|] eqn:Hf.
    - destruct (find_max_price_symbol_some _ _ Hf) as (data & Hin' & _).
      destruct symbol; [|discriminate].
      unfold names_nonempty in Hn. rewrite Forall_forall in Hn.
      apply (Hn EmptyString); [|reflexivity].
      change EmptyString with (fst (EmptyString, data)).
      now apply in_map.
    - pose proof (find_max_price_symbol_none _ Hf s d Hin Hsh) as Hle.
      unfold prices_positive in Hp. rewrite Forall_forall in Hp.
      specialize (Hp _ Hin). simpl in Hp.
      exact (Qlt_not_le _ _ Hp Hle). }
  unfold one_unit_each, units_ge1 in *.
  rewrite Forall_forall in *. intros [s d] Hin. simpl.
  specialize (Hu _ Hin). specialize (Hno s d Hin). simpl in Hu. lia.
Qed.


(** ** The first pass *)

Lemma stock_line_inv (budget total_allocation ratio price : Q) ln :
  stock_line budget total_allocation ratio price = Ok ln ->
  Stock.ratio ln = ratio
  /\ Stock.price ln = price
  /\ Stock.amount ln = inject_Z (Stock.shares ln) * price
  /\ exists target target_shares,
      target_amount budget total_allocation ratio = Ok target
      /\ py_div target price = Ok target_shares
      /\ Stock.shares ln = py_max_int 1 (py_round target_shares).
Proof.
  unfold stock_line. intro H.
  apply bind_ok in H. destruct H as (target & Ht & H).
  apply bind_ok in H. destruct H as (target_shares & Hs & H).
  inversion H; subst ln; simpl.
  repeat split; eauto.
Qed.

Lemma first_pass_invariant (P : string * Stock.line -> Prop)
    (budget total_allocation : Q) (prices : dict Q) :
  forall (items : list (string * Q)) (acc investments : dict Stock.line),
    (forall symbol ratio p ln,
        In (symbol, ratio) items -> dict_get prices symbol = Some p ->
        stock_line budget total_allocation ratio p = Ok ln ->
        P (symbol, ln)) ->
    Forall P acc ->
    first_pass budget total_allocation prices items acc = Ok investments ->
    Forall P investments.
Proof.
  induction items as [|[symbol ratio] items IH]; intros acc inv HP Hacc H;
    simpl in H.
  - inversion H; subst. exact Hacc.
  - destruct (dict_get prices symbol) as [p|] eqn:Hp.
    + apply bind_ok in H. destruct H as (ln & Hln & H).
      eapply IH; [| |exact H].
      * intros; eapply HP; eauto. now right.
      * apply Forall_dict_set; [exact Hacc|].
        eapply HP; eauto. now left.
    + eapply IH; [| exact Hacc | exact H].
      intros; eapply HP; eauto. now right.
Qed.

Lemma first_pass_nodup (budget total_allocation : Q) (prices : dict Q) :
  forall (items : list (string * Q)) (acc investments : dict Stock.line),
    NoDup (keys acc) ->
    first_pass budget total_allocation prices items acc = Ok investments ->
    NoDup (keys investments).
Proof.
  induction items as [|[symbol ratio] items IH]; intros acc inv Hacc H;
    simpl in H.
  - inversion H; subst. exact Hacc.
  - destruct (dict_get prices symbol) as [p|].
    + apply bind_ok in H. destruct H as (ln & _ & H).
      eapply IH; [|exact H]. now apply nodup_keys_dict_set.
    + eapply IH; eauto.
Qed.

(** The lines are those of the configured symbols that have a price, in
    configuration order. *)
Lemma first_pass_keys (budget total_allocation : Q) (prices : dict Q) :
  forall (items : list (string * Q)) (acc investments : dict Stock.line),
    NoDup (keys acc ++ keys items) ->
    first_pass budget total_allocation prices items acc = Ok investments ->
    keys investments
    = keys acc ++ filter (dict_contains prices) (keys items).
Proof.
  induction items as [|[symbol ratio] items IH]; intros acc inv Hnd H;
    simpl in H.
  - inversion H; subst. simpl. now rewrite app_nil_r.
  - simpl. unfold dict_contains at 1.
    assert (Hnin : ~ In symbol (keys acc)).
    { intro Hin. simpl in Hnd. apply NoDup_remove_2 in Hnd.
      apply Hnd. apply in_or_app. now left. }
    assert (Hnd' : forall l, l = keys acc ++ [symbol] \/ l = keys acc ->
                             NoDup (l ++ keys items)).
    { intros l [->| ->].
      - rewrite <- app_assoc. exact Hnd.
      - simpl in Hnd. now apply NoDup_remove_1 in Hnd. }
    destruct (dict_get prices symbol) as [p|].
    + apply bind_ok in H. destruct H as (ln & _ & H).
      apply IH in H.
      * rewrite H, (keys_dict_set_fresh _ _ _ Hnin), <- app_assoc.
        reflexivity.
      * rewrite (keys_dict_set_fresh _ _ _ Hnin). apply Hnd'. now left.
    + apply IH in H; [exact H|]. apply Hnd'. now right.
Qed.

Lemma truthy_str_nonempty (s : string) :
  truthy_str s = true -> s <> EmptyString.
Proof. destruct s; simpl; [discriminate | intros _; discriminate]. Qed.

Lemma in_keys {V : Type} (d : dict V) k v : In (k, v) d -> In k (keys d).
Proof. intro H. change k with (fst (k, v)). now apply in_map. Qed.

Section StockAllocationFacts.
Variables (cfg : Config) (budget : Q) (prices : dict Q).
Variable investments : dict Stock.line.
Hypothesis Hrun : _calculate_stock_allocation cfg budget prices = Ok investments.

Lemma stock_allocation_first_pass :
  exists investments0,
    first_pass budget (py_sum (values (stock_allocation (portfolio cfg))))
      prices (stock_allocation (portfolio cfg)) [] = Ok investments0
    /\ investments = overflow_loop (budget * (3 # 2)) investments0.
Proof.
  unfold _calculate_stock_allocation in Hrun.
  apply bind_ok in Hrun. destruct Hrun as (inv0 & H0 & H).
  exists inv0. split; [exact H0 | now inversion H].
Qed.

Lemma stock_allocation_nodup : NoDup (keys investments).
Proof.
  destruct stock_allocation_first_pass as (inv0 & H0 & ->).
  unfold overflow_loop. rewrite loop_turns_keys.
  eapply first_pass_nodup; [|exact H0]. constructor.
Qed.

Lemma stock_allocation_units_ge1 : units_ge1 investments.
Proof.
  destruct stock_allocation_first_pass as (inv0 & H0 & ->).
  apply loop_turns_units_ge1.
  - eapply first_pass_nodup; [|exact H0]. constructor.
  - eapply first_pass_invariant; [| |exact H0]; [|constructor].
    intros symbol ratio p ln _ _ Hln. simpl.
    apply stock_line_inv in Hln.
    destruct Hln as (_ & _ & _ & t & ts & _ & _ & ->).
    apply py_max_int_lower.
Qed.

Lemma stock_allocation_prices_positive :
  priced_positive prices (stock_allocation (portfolio cfg)) = true ->
  prices_positive investments.
Proof.
  intro Hv.
  destruct stock_allocation_first_pass as (inv0 & H0 & ->).
  apply loop_turns_invariant; [intros k v H; exact H|].
  eapply first_pass_invariant; [| |exact H0]; [|constructor].
  intros symbol ratio p ln Hin Hp Hln. simpl.
  apply stock_line_inv in Hln. destruct Hln as (_ & -> & _).
  unfold priced_positive in Hv. rewrite forallb_forall in Hv.
  specialize (Hv symbol (in_keys _ _ _ Hin)). rewrite Hp in Hv.
  now apply Qltb_lt.
Qed.

Lemma stock_allocation_names :
  all_named (stock_allocation (portfolio cfg)) = true ->
  names_nonempty investments.
Proof.
  intro Hv.
  destruct stock_allocation_first_pass as (inv0 & H0 & ->).
  unfold names_nonempty, overflow_loop. rewrite loop_turns_keys.
  unfold keys. rewrite Forall_map.
  eapply first_pass_invariant; [| |exact H0]; [|constructor].
  intros symbol ratio p ln Hin _ _. simpl.
  unfold all_named in Hv. rewrite forallb_forall in Hv.
  apply truthy_str_nonempty. apply Hv. eapply in_keys; eauto.
Qed.

Lemma stock_allocation_exit :
  loop_iter (budget * (3 # 2)) investments = None.
Proof.
  destruct stock_allocation_first_pass as (inv0 & H0 & ->).
  apply overflow_loop_exits.
  eapply first_pass_nodup; [|exact H0]. constructor.
Qed.
End StockAllocationFacts.

(* ================================================================= *)
(** * The equity sub-plan: bound, unit floor, termination *)

Example sample_units :
  option_map units_of
    (match _calculate_stock_allocation sample_config 2000 sample_stock_prices
     with Ok inv => Some inv | Raise _ => None end)
  = Some [("QQQ", 3%Z); ("VOO", 1%Z); ("GLDM", 11%Z)]%string.
Proof. vm_compute. reflexivity. Qed.

Example loop_runs_to_bound :
  option_map (fun inv => (units_of inv, Qred (total_cost inv)))
    (match _calculate_stock_allocation two_symbol_config 330
             sample_stock_prices
     with Ok inv => Some inv | Raise _ => None end)
  = Some ([("VOO", 1%Z); ("GLDM", 2%Z)]%string, 492).
Proof. vm_compute. reflexivity. Qed.

Example loop_runs_to_floor :
  option_map (fun inv => (units_of inv, Qred (total_cost inv)))
    (match _calculate_stock_allocation two_symbol_config 300
             sample_stock_prices
     with Ok inv => Some inv | Raise _ => None end)
  = Some ([("VOO", 1%Z); ("GLDM", 1%Z)]%string, 456).
Proof. vm_compute. reflexivity. Qed.

(** C9. Every equity line of a returned plan has at least one unit: the
    first pass assigns [max(1, round(target_shares))] and the overflow
    loop sells only from lines that hold more than one unit. *)
Theorem equity_lines_hold_a_unit (cfg : Config)
    (stock_prices crypto_prices : dict Q) (tao_price : Q) (plan : Plan) :
  calculate_weekly_investment cfg stock_prices crypto_prices tao_price
  = Ok plan ->
  forall symbol data,
    In (symbol, data) (stocks plan) -> (1 <= Stock.shares data)%Z.
Proof.
  unfold calculate_weekly_investment. intro H.
  apply bind_ok in H. destruct H as (inv & Hinv & H).
  apply bind_ok in H. destruct H as (w & _ & H).
  apply bind_ok in H. destruct H as (cr & _ & H).
  apply bind_ok in H. destruct H as (t & _ & H).
  inversion H; subst plan; simpl.
  pose proof (stock_allocation_units_ge1 _ _ _ _ Hinv) as Hu.
  unfold units_ge1 in Hu. rewrite Forall_forall in Hu.
  intros symbol data Hin. exact (Hu _ Hin).
Qed.

Lemma equity_lines_hold_a_unit_witness :
  exists plan,
    calculate_weekly_investment sample_config sample_stock_prices
      sample_crypto_prices 500 = Ok plan
    /\ forall symbol data,
        In (symbol, data) (stocks plan) -> (1 <= Stock.shares data)%Z.
Proof.
  eexists. split.
  - vm_compute. reflexivity.
  - apply (equity_lines_hold_a_unit sample_config sample_stock_prices
             sample_crypto_prices 500).
    vm_compute. reflexivity.
Defined.

(** C3, as stated, fails: with a weekly limit of 100 and the sample
    prices every symbol gets its mandatory unit and the sub-plan costs
    806, above 150. *)
Lemma stock_bound_counterexample :
  let cfg := with_usd_limit sample_config 100 in
  let limit := weekly_usd_limit (limits cfg) in
  0 < limit
  /\ fully_priced sample_stock_prices (stock_allocation (portfolio cfg)) = true
  /\ exists investments,
      _calculate_stock_allocation cfg limit sample_stock_prices
      = Ok investments
      /\ units_of investments
         = [("QQQ", 1%Z); ("VOO", 1%Z); ("GLDM", 1%Z)]%string
      /\ total_cost investments == 806
      /\ ~ total_cost investments <= limit * (3 # 2).
Proof.
  simpl. split; [reflexivity|]. split; [reflexivity|].
  eexists. split; [vm_compute; reflexivity|].
  split; [reflexivity|]. split; [reflexivity|].
  intro H. vm_compute in H. apply H. reflexivity.
Qed.

(** C3, amended. When every priced configured symbol has a strictly
    positive price and a non-empty name, the equity sub-plan costs at
    most 1.5 times the budget, or every line holds exactly one unit. *)
Theorem stock_bound_or_unit_floor (cfg : Config) (budget : Q)
    (prices : dict Q) (investments : dict Stock.line) :
  priced_positive prices (stock_allocation (portfolio cfg)) = true ->
  all_named (stock_allocation (portfolio cfg)) = true ->
  _calculate_stock_allocation cfg budget prices = Ok investments ->
  total_cost investments <= budget * (3 # 2) \/ one_unit_each investments.
Proof.
  intros Hp Hn Hrun.
  apply loop_iter_none.
  - eapply stock_allocation_units_ge1; eauto.
  - eapply stock_allocation_prices_positive; eauto.
  - eapply stock_allocation_names; eauto.
  - eapply stock_allocation_exit; eauto.
Qed.

Lemma stock_bound_or_unit_floor_witness :
  exists investments,
    _calculate_stock_allocation two_symbol_config 330 sample_stock_prices
    = Ok investments
    /\ (total_cost investments <= 330 * (3 # 2)
        \/ one_unit_each investments).
Proof.
  eexists. split.
  - vm_compute. reflexivity.
  - apply (stock_bound_or_unit_floor two_symbol_config 330
             sample_stock_prices).
    + reflexivity.
    + reflexivity.
    + vm_compute. reflexivity.
Defined.




(* ================================================================= *)
(** * The normalising denominator of the equity targets *)




(** When every configured symbol has a price the two denominators are
    the same. *)
Lemma ratio_sum_of_priced_full (prices allocations : dict Q) :
  forallb (dict_contains prices) (keys allocations) = true ->
  ratio_sum_of_priced prices allocations = py_sum (values allocations).
Proof.
  unfold ratio_sum_of_priced, keys. intro H. f_equal. f_equal.
  induction allocations as [|[k v] l IH]; simpl in *; [reflexivity|].
  apply andb_true_iff in H. destruct H as [Hk Hl].
  rewrite Hk. f_equal. auto.
Qed.

(* ================================================================= *)
(** * Symbols without a price *)

Lemma Qltb_nonzero (p : Q) : Qltb 0 p = true -> ~ p == 0.
Proof.
  intros H Hz. apply Qltb_lt in H. rewrite Hz in H.
  exact (Qlt_irrefl _ H).
Qed.

Lemma priced_positive_cons (prices : dict Q) symbol ratio items :
  priced_positive prices ((symbol, ratio) :: items) = true ->
  (forall p, dict_get prices symbol = Some p -> ~ p == 0)
  /\ priced_positive prices items = true.
Proof.
  unfold priced_positive. simpl. intro H.
  apply andb_true_iff in H. destruct H as [Hs Hr].
  split; [|exact Hr].
  intros p Hp. rewrite Hp in Hs. now apply Qltb_nonzero.
Qed.

(** The first pass raises only on a zero divisor. *)
Lemma first_pass_ok (budget total_allocation : Q) (prices : dict Q) :
  forall (items : list (string * Q)) (acc : dict Stock.line),
    (~ total_allocation == 0
     \/ forallb (fun k => negb (dict_contains prices k)) (keys items) = true) ->
    priced_positive prices items = true ->
    exists investments,
      first_pass budget total_allocation prices items acc = Ok investments.
Proof.
  induction items as [|[symbol ratio] items IH]; intros acc Ht Hp; simpl.
  - eauto.
  - apply priced_positive_cons in Hp. destruct Hp as [Hs Hp].
    assert (Ht' : ~ total_allocation == 0
                  \/ forallb (fun k => negb (dict_contains prices k))
                       (keys items) = true).
    { destruct Ht as [Ht|Ht]; [now left|]. right. simpl in Ht.
      apply andb_true_iff in Ht. tauto. }
    destruct (dict_get prices symbol) as [p|] eqn:E.
    + destruct Ht as [Ht|Ht].
      2:{ simpl in Ht. unfold dict_contains in Ht. rewrite E in Ht.
          discriminate Ht. }
      unfold stock_line, target_amount.
      rewrite (py_div_ok _ _ Ht). cbn [bind].
      rewrite (py_div_ok _ _ (Hs p eq_refl)). cbn [bind].
      apply IH; auto.
    + apply IH; auto.
Qed.

Lemma crypto_pass_ok (budget : Q) (prices : dict Q) :
  forall (items : list (string * Q)) (acc : dict Crypto.line),
    priced_positive prices items = true ->
    exists investments, crypto_pass budget prices items acc = Ok investments.
Proof.
  induction items as [|[symbol ratio] items IH]; intros acc Hp; simpl.
  - eauto.
  - apply priced_positive_cons in Hp. destruct Hp as [Hs Hp].
    destruct (dict_get prices symbol) as [p|] eqn:E.
    + rewrite (py_div_ok _ _ (Hs p eq_refl)). cbn [bind]. apply IH; auto.
    + apply IH; auto.
Qed.

Lemma crypto_pass_keys (budget : Q) (prices : dict Q) :
  forall (items : list (string * Q)) (acc investments : dict Crypto.line),
    NoDup (keys acc ++ keys items) ->
    crypto_pass budget prices items acc = Ok investments ->
    keys investments
    = keys acc ++ filter (dict_contains prices) (keys items).
Proof.
  induction items as [|[symbol ratio] items IH]; intros acc inv Hnd H;
    simpl in H.
  - inversion H; subst. simpl. now rewrite app_nil_r.
  - simpl. unfold dict_contains at 1.
    assert (Hnin : ~ In symbol (keys acc)).
    { intro Hin. simpl in Hnd. apply NoDup_remove_2 in Hnd.
      apply Hnd. apply in_or_app. now left. }
    destruct (dict_get prices symbol) as [p|].
    + apply bind_ok in H. destruct H as (q & _ & H).
      apply IH in H.
      * rewrite H, (keys_dict_set_fresh _ _ _ Hnin), <- app_assoc.
        reflexivity.
      * rewrite (keys_dict_set_fresh _ _ _ Hnin), <- app_assoc. exact Hnd.
    + apply IH in H; [exact H|].
      simpl in Hnd. now apply NoDup_remove_1 in Hnd.
Qed.

(** C1, as stated, fails: with VOO and ETH configured but absent from
    the price maps the call raises nothing and returns a plan over the
    priced symbols only. *)
Lemma missing_price_counterexample :
  In "VOO"%string (keys (stock_allocation (portfolio sample_config)))
  /\ dict_contains without_voo "VOO" = false
  /\ In "ETH"%string (keys (crypto_allocation (portfolio sample_config)))
  /\ dict_contains without_eth "ETH" = false
  /\ exists plan,
      calculate_weekly_investment sample_config without_voo without_eth 500
      = Ok plan
      /\ keys (stocks plan) = ["QQQ"; "GLDM"]%string
      /\ keys (cryptos plan) = ["BTC"; "SOL"; "BNB"]%string
      /\ stock_total plan == 1446.
Proof.
  split; [simpl; tauto|]. split; [reflexivity|].
  split; [simpl; tauto|]. split; [reflexivity|].
  eexists. split; [vm_compute; reflexivity|].
  repeat split.
Qed.

(** C1, amended. Symbols without a price are skipped, not reported: when
    the divisors are non-zero (priced symbols have positive prices, the
    ratio sum, the stock weight and the TAO price are not zero) the call
    returns a plan, whether or not configured symbols lack a price, and
    the plan's lines are exactly the configured symbols that have a
    price, in configuration order. *)
Theorem unpriced_symbols_are_skipped (cfg : Config)
    (stock_prices crypto_prices : dict Q) (tao_price : Q) :
  let p := portfolio cfg in
  NoDup (keys (stock_allocation p)) ->
  NoDup (keys (crypto_allocation p)) ->
  priced_positive stock_prices (stock_allocation p) = true ->
  priced_positive crypto_prices (crypto_allocation p) = true ->
  ~ py_sum (values (stock_allocation p)) == 0 ->
  ~ stock_weight p == 0 ->
  ~ tao_price == 0 ->
  exists plan,
    calculate_weekly_investment cfg stock_prices crypto_prices tao_price
    = Ok plan
    /\ keys (stocks plan)
       = filter (dict_contains stock_prices) (keys (stock_allocation p))
    /\ keys (cryptos plan)
       = filter (dict_contains crypto_prices) (keys (crypto_allocation p)).
Proof.
  intros p Hns Hnc Hps Hpc Ht Hw Htao.
  unfold calculate_weekly_investment, _calculate_stock_allocation,
    _calculate_crypto_allocation.
  fold p.
  destruct (first_pass_ok (weekly_usd_limit (limits cfg))
              (py_sum (values (stock_allocation p))) stock_prices
              (stock_allocation p) [] (or_introl Ht) Hps) as (inv0 & H0).
  rewrite H0. cbn [bind].
  rewrite (py_div_ok _ _ Hw). cbn [bind].
  match goal with
  | |- context [crypto_pass ?b _ _ _] =>
      destruct (crypto_pass_ok b crypto_prices (crypto_allocation p) [] Hpc)
        as (cr & Hcr)
  end.
  rewrite Hcr. cbn [bind].
  rewrite (py_div_ok _ _ Htao). cbn [bind].
  eexists. split; [reflexivity|]. simpl. split.
  - unfold overflow_loop. rewrite loop_turns_keys.
    apply (first_pass_keys _ _ _ (stock_allocation p) [] _ Hns H0).
  - apply (crypto_pass_keys _ _ (crypto_allocation p) [] _ Hnc Hcr).
Qed.

Lemma unpriced_symbols_are_skipped_witness :
  exists plan,
    calculate_weekly_investment sample_config without_voo without_eth 500
    = Ok plan
    /\ keys (stocks plan)
       = filter (dict_contains without_voo)
           (keys (stock_allocation (portfolio sample_config)))
    /\ keys (cryptos plan)
       = filter (dict_contains without_eth)
           (keys (crypto_allocation (portfolio sample_config))).
Proof.
  apply (unpriced_symbols_are_skipped sample_config without_voo without_eth
           500).
  - simpl. repeat constructor; simpl; intuition discriminate.
  - simpl. repeat constructor; simpl; intuition discriminate.
  - reflexivity.
  - reflexivity.
  - intro H. vm_compute in H. discriminate H.
  - intro H. vm_compute in H. discriminate H.
  - intro H. vm_compute in H. discriminate H.
Defined.

(* ================================================================= *)
(** * The crypto budget and its cap *)

Lemma py_min_Qmin (a b : Q) : py_min a b == Qmin a b.
Proof.
  unfold py_min. destruct (Qltb b a) eqn:E.
  - apply Qltb_lt in E. symmetry. apply Q.min_r. now apply Qlt_le_weak.
  - apply Qltb_ge in E. symmetry. now apply Q.min_l.
Qed.

(** C2. In a returned plan, [crypto_total] is the minimum of
    [actual_stock_cost * (crypto_weight / stock_weight)] and
    [weekly_tao_limit * tao_price], where [actual_stock_cost] is the sum
    of the equity line amounts; so it never exceeds the TAO cap and
    equals the proportional budget whenever that is below the cap. *)
Theorem crypto_total_is_capped_ratio (cfg : Config)
    (stock_prices crypto_prices : dict Q) (tao_price : Q) (plan : Plan) :
  calculate_weekly_investment cfg stock_prices crypto_prices tao_price
  = Ok plan ->
  let actual_stock_cost := py_sum (map Stock.amount (values (stocks plan))) in
  let target :=
    actual_stock_cost
    * (crypto_weight (portfolio cfg) / stock_weight (portfolio cfg)) in
  let cap := weekly_tao_limit (limits cfg) * tao_price in
  stock_total plan = actual_stock_cost
  /\ crypto_total plan = py_min target cap
  /\ crypto_total plan == Qmin target cap
  /\ crypto_total plan <= cap
  /\ (target < cap -> crypto_total plan = target).
Proof.
  unfold calculate_weekly_investment. intro H.
  apply bind_ok in H. destruct H as (inv & Hinv & H).
  apply bind_ok in H. destruct H as (w & Hw & H).
  apply bind_ok in H. destruct H as (cr & _ & H).
  apply bind_ok in H. destruct H as (t & _ & H).
  unfold py_div in Hw.
  destruct (Qeq_bool (stock_weight (portfolio cfg)) 0); [discriminate Hw|].
  injection Hw as <-.
  inversion H; subst plan; cbn [stocks stock_total crypto_total].
  split; [reflexivity|]. split; [reflexivity|].
  split; [apply py_min_Qmin|]. split; [apply py_min_le_r|].
  apply py_min_l.
Qed.

Lemma crypto_total_is_capped_ratio_witness :
  exists plan,
    calculate_weekly_investment sample_config sample_stock_prices
      sample_crypto_prices 500 = Ok plan
    /\ crypto_total plan == 1244
    /\ crypto_total plan
       <= weekly_tao_limit (limits sample_config) * 500.
Proof.
  eexists. split; [vm_compute; reflexivity|].
  split; [reflexivity|].
  refine (proj1 (proj2 (proj2 (proj2
    (crypto_total_is_capped_ratio sample_config sample_stock_prices
       sample_crypto_prices 500 _ _))))).
  vm_compute. reflexivity.
Defined.

(* ================================================================= *)
(** * Rebalancing with an empty portfolio *)

Lemma fold_left_Qplus_zeros (xs : list Q) (a : Q) :
  Forall (fun x => x == 0) xs -> fold_left Qplus xs a == a.
Proof.
  revert a. induction xs as [|x xs IH]; intros a H; simpl.
  - reflexivity.
  - inversion H as [|? ? Hx Hxs]; subst.
    rewrite (IH _ Hxs), Hx. apply Qplus_0_r.
Qed.

(** C4. With every holding at zero and a positive weekly budget,
    [total_portfolio_value > 0] holds, the guard lets the correction
    logic run, and [current_value / (total_portfolio_value -
    weekly_budget)] divides by zero at the first target symbol: the call
    raises instead of distributing the budget by the target ratios. *)
Theorem rebalancing_of_empty_portfolio_raises (current_portfolio : dict Q)
    (target_allocation : dict Q) (weekly_budget : Q) :
  all_zero current_portfolio ->
  0 < weekly_budget ->
  target_allocation <> [] ->
  calculate_rebalancing_adjustment current_portfolio target_allocation
    weekly_budget
  = Raise ZeroDivisionError.
Proof.
  intros Hz Hb Hne.
  unfold calculate_rebalancing_adjustment.
  destruct target_allocation as [|[symbol target_ratio] rest];
    [contradiction|].
  assert (Hsum : py_sum (values current_portfolio) == 0)
    by now apply fold_left_Qplus_zeros.
  simpl correction_pass.
  assert (Hpos : Qltb 0 (py_sum (values current_portfolio) + weekly_budget)
                 = true).
  { apply Qltb_lt. rewrite Hsum, Qplus_0_l. exact Hb. }
  rewrite Hpos.
  rewrite py_div_zero; [reflexivity|].
  rewrite Hsum. ring.
Qed.

Lemma rebalancing_of_empty_portfolio_raises_witness :
  calculate_rebalancing_adjustment no_holdings even_targets 1000
  = Raise ZeroDivisionError.
Proof.
  apply rebalancing_of_empty_portfolio_raises.
  - repeat constructor.
  - reflexivity.
  - discriminate.
Defined.

(** The branch that the guard was meant to reach distributes the budget
    by the target ratios. *)
Example plain_distribution_sample :
  plain_distribution 1000 even_targets []
  = [("QQQ", 1000 * (1 # 2)); ("BTC", 1000 * (1 # 2))]%string.
Proof. reflexivity. Qed.

(** With holdings that already match the targets no correction is
    triggered and the call does return that distribution. *)
Example rebalancing_balanced_sample :
  calculate_rebalancing_adjustment
    [("QQQ", 500); ("BTC", 500)]%string even_targets 1000
  = Ok [("QQQ", 1000 * (1 # 2)); ("BTC", 1000 * (1 # 2))]%string.
Proof. vm_compute. reflexivity. Qed.

(* ================================================================= *)
(** * Crash tiers *)

Lemma crash_level_cases (cfg : Config) (d : Q) :
  let cc := crash_config cfg in
  (level3_threshold cc <= d
   /\ _determine_crash_level cfg d = (3%Z, level3_multiplier cc))
  \/ (~ level3_threshold cc <= d /\ level2_threshold cc <= d
      /\ _determine_crash_level cfg d = (2%Z, level2_multiplier cc))
  \/ (~ level3_threshold cc <= d /\ ~ level2_threshold cc <= d
      /\ level1_threshold cc <= d
      /\ _determine_crash_level cfg d = (1%Z, level1_multiplier cc))
  \/ (~ level3_threshold cc <= d /\ ~ level2_threshold cc <= d
      /\ ~ level1_threshold cc <= d
      /\ _determine_crash_level cfg d = (0%Z, 1)).
Proof.
  unfold _determine_crash_level. simpl.
  destruct (Qle_bool (level3_threshold (crash_config cfg)) d) eqn:E3.
  { left. apply Qle_bool_iff in E3. auto. }
  right.
  assert (H3 : ~ level3_threshold (crash_config cfg) <= d).
  { intro H. apply Qle_bool_iff in H. congruence. }
  destruct (Qle_bool (level2_threshold (crash_config cfg)) d) eqn:E2.
  { left. apply Qle_bool_iff in E2. auto. }
  right.
  assert (H2 : ~ level2_threshold (crash_config cfg) <= d).
  { intro H. apply Qle_bool_iff in H. congruence. }
  destruct (Qle_bool (level1_threshold (crash_config cfg)) d) eqn:E1.
  { left. apply Qle_bool_iff in E1. auto. }
  right.
  assert (H1 : ~ level1_threshold (crash_config cfg) <= d).
  { intro H. apply Qle_bool_iff in H. congruence. }
  auto.
Qed.

(** C8. For fixed thresholds a larger drop never gets a lower tier; the
    tier reported is the deepest one whose threshold the drop meets
    (every tier whose threshold is met is at most the reported one, and
    a reported tier above 0 has its threshold met), with that tier's
    multiplier; a drop of 0.21 against 0.10/0.20/0.30 is tier 2 with
    multiplier 2. *)
Theorem crash_level_monotone (cfg : Config) (drop1 drop2 : Q) :
  drop2 <= drop1 ->
  (fst (_determine_crash_level cfg drop2)
   <= fst (_determine_crash_level cfg drop1))%Z
  /\ (forall tier, (1 <= tier <= 3)%Z -> threshold_of cfg tier <= drop1 ->
                   (tier <= fst (_determine_crash_level cfg drop1))%Z)
  /\ ((0 < fst (_determine_crash_level cfg drop1))%Z ->
      threshold_of cfg (fst (_determine_crash_level cfg drop1)) <= drop1)
  /\ (0 <= fst (_determine_crash_level cfg drop1) <= 3)%Z
  /\ snd (_determine_crash_level cfg drop1)
     = multiplier_of cfg (fst (_determine_crash_level cfg drop1))
  /\ _determine_crash_level sample_config (21 # 100) = (2%Z, 2).
Proof.
  intro Hle.
  pose proof (crash_level_cases cfg drop1) as H1.
  pose proof (crash_level_cases cfg drop2) as H2.
  simpl in H1, H2.
  assert (Hup : forall t, t <= drop2 -> t <= drop1)
    by (intros t Ht; eapply Qle_trans; eauto).
  split; [|split; [|split; [|split; [|split]]]].
  - destruct H1 as [(A & ->)|[(A & B & ->)|[(A & B & C & ->)|(A & B & C & ->)]]];
    destruct H2 as [(A' & ->)|[(A' & B' & ->)|[(A' & B' & C' & ->)
                                               |(A' & B' & C' & ->)]]];
    simpl; try lia; exfalso; auto.
  - intros tier Hr Ht. unfold threshold_of in Ht. simpl in Ht.
    destruct H1 as [(A & ->)|[(A & B & ->)|[(A & B & C & ->)|(A & B & C & ->)]]];
      simpl; try lia;
      destruct (tier =? 1)%Z eqn:T1;
      try (apply Z.eqb_eq in T1; lia);
      destruct (tier =? 2)%Z eqn:T2;
      try (apply Z.eqb_eq in T2; lia);
      try contradiction;
      apply Z.eqb_neq in T1; apply Z.eqb_neq in T2; lia.
  - destruct H1 as [(A & ->)|[(A & B & ->)|[(A & B & C & ->)|(A & B & C & ->)]]];
      simpl; intro Hpos; try lia; unfold threshold_of; simpl; assumption.
  - destruct H1 as [(A & ->)|[(A & B & ->)|[(A & B & C & ->)|(A & B & C & ->)]]];
      simpl; lia.
  - destruct H1 as [(A & ->)|[(A & B & ->)|[(A & B & C & ->)|(A & B & C & ->)]]];
      reflexivity.
  - reflexivity.
Qed.

Lemma crash_level_monotone_witness :
  (fst (_determine_crash_level sample_config (15 # 100))
   <= fst (_determine_crash_level sample_config (21 # 100)))%Z.
Proof.
  refine (proj1 (crash_level_monotone sample_config (21 # 100) (15 # 100) _)).
  unfold Qle. simpl. lia.
Defined.

(* ================================================================= *)
(** * Crash detection: history failures and the weekly budget *)

Section DictGetSet.
Context {V : Type}.

Lemma dict_get_set_same (d : dict V) k v :
  dict_get (dict_set d k v) k = Some v.
Proof.
  induction d as [|[k' v'] d IH]; simpl.
  - now rewrite String.eqb_refl.
  - destruct (String.eqb k' k) eqn:E; simpl; rewrite E; auto.
Qed.

Lemma dict_get_set_other (d : dict V) k v k0 :
  k <> k0 -> dict_get (dict_set d k v) k0 = dict_get d k0.
Proof.
  intro Hne.
  induction d as [|[k' v'] d IH]; simpl.
  - apply String.eqb_neq in Hne. now rewrite Hne.
  - destruct (String.eqb k' k) eqn:E; simpl.
    + apply String.eqb_eq in E. subst k'.
      apply String.eqb_neq in Hne. now rewrite Hne.
    + now rewrite IH.
Qed.
End DictGetSet.

(** What the result stores under a symbol: the assessment of its current
    price, if there is one. *)
Lemma detect_pass_get (cfg : Config) (history_manager : HistoryManager)
    (symbol : string) :
  forall (items : dict Q) (acc : dict Opportunity),
    NoDup (keys items) ->
    dict_get (detect_pass cfg history_manager items acc) symbol
    = match dict_get items symbol with
      | Some current_price =>
          match assess cfg history_manager symbol current_price with
          | Some o => Some o
          | None => dict_get acc symbol
          end
      | None => dict_get acc symbol
      end.
Proof.
  induction items as [|[s c] items IH]; intros acc Hnd; simpl;
    [reflexivity|].
  inversion Hnd as [|? ? Hnin Hnd']; subst.
  destruct (String.eqb s symbol) eqn:E.
  - apply String.eqb_eq in E. subst s.
    apply dict_get_none in Hnin.
    destruct (assess cfg history_manager symbol c) as [o|];
      rewrite (IH _ Hnd'), Hnin; [apply dict_get_set_same | reflexivity].
  - apply String.eqb_neq in E.
    destruct (assess cfg history_manager s c) as [o|]; rewrite (IH _ Hnd');
      [|reflexivity].
    rewrite (dict_get_set_other _ _ _ _ E). reflexivity.
Qed.

Lemma no_data_fallback (symbol : string) (current_price : Q)
    (history_manager : HistoryManager) (days : Z) :
  no_data (history_manager symbol) ->
  _get_average_price symbol current_price history_manager days
  = Some (current_price * (115 # 100)).
Proof.
  unfold _get_average_price.
  intros [->|(c & -> & Hc)]; [reflexivity|].
  destruct (truthy_num c); [|reflexivity]. simpl.
  destruct (Qltb 0 c) eqn:E; [|reflexivity].
  apply Qltb_lt in E. exfalso. exact (Qlt_not_le _ _ E Hc).
Qed.

(** C5, as stated, fails for a lookup that raises: the symbol is dropped.
    With no data BTC at 45000 is assessed against 51750 and reported at
    tier 1; with a raising lookup the result is empty. *)
Lemma history_error_counterexample :
  _get_average_price "BTC" 45000 failing_history 7 = None
  /\ detect_crash_opportunities sample_config btc_only failing_history = []
  /\ (exists o,
         detect_crash_opportunities sample_config btc_only empty_history
         = [("BTC"%string, o)]
         /\ avg_price o == 51750 /\ crash_level o = 1%Z).
Proof.
  split; [reflexivity|]. split; [reflexivity|].
  eexists. split; [vm_compute; reflexivity|].
  split; reflexivity.
Qed.

(** C5, amended. For a symbol of [current_prices] with a positive price:
    when the lookup returns no data the symbol is assessed against
    [current_price * 1.15], and is reported exactly when that drop
    reaches a tier; when the lookup raises, the error is swallowed and
    the symbol is left out of the result. *)
Theorem history_failure_handling (cfg : Config) (current_prices : dict Q)
    (history_manager : HistoryManager) (symbol : string) (price : Q) :
  NoDup (keys current_prices) ->
  dict_get current_prices symbol = Some price ->
  0 < price ->
  let result :=
    detect_crash_opportunities cfg current_prices history_manager in
  (no_data (history_manager symbol) ->
   let avg := price * (115 # 100) in
   let drop := (avg - price) / avg in
   let tier := _determine_crash_level cfg drop in
   let base := _get_weekly_budget cfg symbol
               * _get_base_allocation cfg symbol in
   dict_get result symbol
   = if (0 <? fst tier)%Z
     then Some {| current_price := price;
                  avg_price := avg;
                  drop_percent := drop * 100;
                  crash_level := fst tier;
                  multiplier := snd tier;
                  base_amount := base;
                  suggested_amount := base * snd tier |}
     else None)
  /\ (forall e, history_manager symbol = Raise e ->
                dict_get result symbol = None
                /\ ~ In symbol (keys result)).
Proof.
  intros Hnd Hget Hpos result.
  assert (Hres : dict_get result symbol
                 = assess cfg history_manager symbol price).
  { unfold result, detect_crash_opportunities.
    rewrite (detect_pass_get _ _ _ _ _ Hnd), Hget. simpl.
    now destruct (assess cfg history_manager symbol price). }
  split.
  - intros Hno avg drop tier base. rewrite Hres.
    unfold assess. rewrite (no_data_fallback _ _ _ _ Hno).
    fold avg.
    assert (Havg : 0 < avg).
    { unfold avg. apply Qmult_lt_0_compat; [exact Hpos | reflexivity]. }
    assert (Ht : truthy_num avg && Qltb 0 avg = true).
    { apply andb_true_iff. split; [|now apply Qltb_lt].
      unfold truthy_num. apply negb_true_iff.
      destruct (Qeq_bool avg 0) eqn:E; [|reflexivity].
      apply Qeq_bool_iff in E. rewrite E in Havg.
      exfalso. exact (Qlt_irrefl _ Havg). }
    rewrite Ht. fold drop. fold tier.
    destruct tier as [level mult]. simpl. reflexivity.
  - intros e He.
    assert (Hnone : dict_get result symbol = None).
    { rewrite Hres. unfold assess, _get_average_price. now rewrite He. }
    split; [exact Hnone | now apply dict_get_none].
Qed.

Lemma history_failure_handling_witness :
  (exists o,
      dict_get (detect_crash_opportunities sample_config btc_only
                  empty_history) "BTC" = Some o
      /\ avg_price o = 45000 * (115 # 100)
      /\ crash_level o = 1%Z)
  /\ dict_get (detect_crash_opportunities sample_config btc_only
                 failing_history) "BTC" = None
  /\ ~ In "BTC"%string
       (keys (detect_crash_opportunities sample_config btc_only
                failing_history)).
Proof.
  assert (Hnd : NoDup (keys btc_only))
    by (simpl; constructor; [intros []|constructor]).
  assert (Hget : dict_get btc_only "BTC" = Some 45000) by reflexivity.
  assert (Hpos : 0 < 45000) by reflexivity.
  split.
  - pose proof (proj1 (history_failure_handling sample_config btc_only
                         empty_history "BTC" 45000 Hnd Hget Hpos)
                  (or_introl eq_refl)) as Hno.
    cbv zeta in Hno.
    eexists. split; [exact Hno|]. split; reflexivity.
  - exact (proj2 (history_failure_handling sample_config btc_only
                    failing_history "BTC" 45000 Hnd Hget Hpos)
             (Exception_ "history unavailable") eq_refl).
Defined.

(** C6, as stated, fails: [detect_crash_opportunities] receives no
    conversion price.  In a run whose plan is computed with a TAO price
    of 250 (cap 4 * 250 = 1000) the budget behind the BTC opportunity is
    4 * 500 = 2000. *)
Lemma weekly_budget_counterexample :
  let tao_price := 250 in
  let limit := weekly_tao_limit (limits sample_config) in
  (exists plan,
      calculate_weekly_investment sample_config sample_stock_prices
        sample_crypto_prices tao_price = Ok plan
      /\ crypto_total plan == limit * tao_price)
  /\ is_stock_symbol "BTC" = false
  /\ _get_weekly_budget sample_config "BTC" == 2000
  /\ ~ _get_weekly_budget sample_config "BTC" == limit * tao_price
  /\ (exists o,
         dict_get (detect_crash_opportunities sample_config
                     sample_crypto_prices empty_history) "BTC" = Some o
         /\ base_amount o
            == 2000 * _get_base_allocation sample_config "BTC"
         /\ ~ base_amount o
              == limit * tao_price
                 * _get_base_allocation sample_config "BTC").
Proof.
  simpl. split.
  { eexists. split; [vm_compute; reflexivity | reflexivity]. }
  split; [reflexivity|]. split; [reflexivity|].
  split; [intro H; vm_compute in H; discriminate H|].
  eexists. split; [vm_compute; reflexivity|].
  split; [reflexivity|].
  intro H. vm_compute in H. discriminate H.
Qed.

(** C6, amended. For a symbol outside QQQ, VOO and GLDM the weekly
    budget is [weekly_tao_limit * 500], a fixed assumed TAO price, and
    every opportunity reported for such a symbol has that budget times
    the symbol's base allocation as its base amount. *)
Theorem crypto_weekly_budget_is_fixed (cfg : Config) (symbol : string) :
  is_stock_symbol symbol = false ->
  _get_weekly_budget cfg symbol = weekly_tao_limit (limits cfg) * 500
  /\ forall (history_manager : HistoryManager) (price : Q) (o : Opportunity),
      assess cfg history_manager symbol price = Some o ->
      base_amount o
      = weekly_tao_limit (limits cfg) * 500
        * _get_base_allocation cfg symbol.
Proof.
  intro Hs.
  assert (Hb : _get_weekly_budget cfg symbol
               = weekly_tao_limit (limits cfg) * 500).
  { unfold _get_weekly_budget. now rewrite Hs. }
  split; [exact Hb|].
  intros hm price o. unfold assess.
  destruct (_get_average_price _ _ _ _) as [avg|]; [|discriminate].
  destruct (truthy_num avg && Qltb 0 avg); [|discriminate].
  destruct (_determine_crash_level cfg _) as [level mult].
  destruct (0 <? level)%Z; [|discriminate].
  intro H. injection H as <-. simpl. now rewrite Hb.
Qed.

Lemma crypto_weekly_budget_is_fixed_witness :
  _get_weekly_budget sample_config "BTC"
  = weekly_tao_limit (limits sample_config) * 500.
Proof.
  exact (proj1 (crypto_weekly_budget_is_fixed sample_config "BTC" eq_refl)).
Defined.

(* ================================================================= *)
(** * Further properties of the allocation *)




(** X1. Every line of a returned equity sub-plan belongs to a configured
    symbol with a price and is consistent with it, also after the
    overflow loop: it carries that ratio and that price, its amount is
    its units times the price, and it holds at least one unit. *)
Theorem stock_lines_consistent (cfg : Config) (budget : Q) (prices : dict Q)
    (investments : dict Stock.line) :
  _calculate_stock_allocation cfg budget prices = Ok investments ->
  forall symbol data,
    In (symbol, data) investments ->
    exists ratio p,
      In (symbol, ratio) (stock_allocation (portfolio cfg))
      /\ dict_get prices symbol = Some p
      /\ Stock.ratio data = ratio
      /\ Stock.price data = p
      /\ Stock.amount data = inject_Z (Stock.shares data) * p
      /\ (1 <= Stock.shares data)%Z.
Proof.
  intros Hrun.
  pose proof (stock_allocation_units_ge1 _ _ _ _ Hrun) as Hge.
  destruct (stock_allocation_first_pass _ _ _ _ Hrun) as (inv0 & H0 & ->).
  set (P := fun kv : string * Stock.line =>
              exists ratio p,
                In (fst kv, ratio) (stock_allocation (portfolio cfg))
                /\ dict_get prices (fst kv) = Some p
                /\ Stock.ratio (snd kv) = ratio
                /\ Stock.price (snd kv) = p
                /\ Stock.amount (snd kv)
                   = inject_Z (Stock.shares (snd kv)) * p).
  assert (Hall : Forall P (overflow_loop (budget * (3 # 2)) inv0)).
  { apply loop_turns_invariant.
    - intros k v (ratio & p & Ha & Hp & Hr & Hpr & Ham).
      exists ratio, p. simpl in *. repeat split; auto.
      now rewrite Hpr.
    - eapply first_pass_invariant; [| |exact H0]; [|constructor].
      intros symbol ratio p ln Hin Hp Hln.
      exists ratio, p. simpl.
      apply stock_line_inv in Hln.
      destruct Hln as (Hr & Hpr & Ham & _).
      repeat split; auto. }
  rewrite Forall_forall in Hall.
  unfold units_ge1 in Hge. rewrite Forall_forall in Hge.
  intros symbol data Hin.
  destruct (Hall _ Hin) as (ratio & p & Ha & Hp & Hr & Hpr & Ham).
  specialize (Hge _ Hin). simpl in *.
  exists ratio, p. repeat split; auto.
Qed.

Lemma stock_lines_consistent_witness :
  exists investments,
    _calculate_stock_allocation two_symbol_config 330 sample_stock_prices
    = Ok investments
    /\ forall symbol data,
        In (symbol, data) investments ->
        exists ratio p,
          dict_get sample_stock_prices symbol = Some p
          /\ Stock.ratio data = ratio
          /\ Stock.amount data = inject_Z (Stock.shares data) * p.
Proof.
  assert (Hrun : _calculate_stock_allocation two_symbol_config 330
                   sample_stock_prices
                 = Ok [("VOO"%string,
                        {| Stock.amount := 420; Stock.ratio := 1 # 2;
                           Stock.price := 420; Stock.shares := 1 |});
                       ("GLDM"%string,
                        {| Stock.amount := 2 * 36; Stock.ratio := 1 # 2;
                           Stock.price := 36; Stock.shares := 2 |})])
    by (vm_compute; reflexivity).
  eexists. split; [exact Hrun|].
  intros symbol data Hin.
  destruct (stock_lines_consistent _ _ _ _ Hrun symbol data Hin)
    as (ratio & p & _ & Hp & Hr & _ & Ham & _).
  exists ratio, p. split; [exact Hp|]. split; [exact Hr | exact Ham].
Defined.

(* ================================================================= *)
(** * Simulation *)






(* ================================================================= *)
(** * Crash detection: the reported opportunities *)

Lemma assess_some (cfg : Config) (history_manager : HistoryManager)
    (symbol : string) (price : Q) (o : Opportunity) :
  assess cfg history_manager symbol price = Some o ->
  exists avg,
    _get_average_price symbol price history_manager
      (if is_stock_symbol symbol
       then stock_lookback_days (crash_config cfg)
       else crypto_lookback_days (crash_config cfg)) = Some avg
    /\ 0 < avg
    /\ (0 < fst (_determine_crash_level cfg ((avg - price) / avg)))%Z
    /\ o = {| current_price := price;
              avg_price := avg;
              drop_percent := (avg - price) / avg * 100;
              crash_level :=
                fst (_determine_crash_level cfg ((avg - price) / avg));
              multiplier :=
                snd (_determine_crash_level cfg ((avg - price) / avg));
              base_amount :=
                _get_weekly_budget cfg symbol
                * _get_base_allocation cfg symbol;
              suggested_amount :=
                _get_weekly_budget cfg symbol
                * _get_base_allocation cfg symbol
                * snd (_determine_crash_level cfg ((avg - price) / avg)) |}.
Proof.
  unfold assess.
  destruct (_get_average_price _ _ _ _) as [avg|]; [|discriminate].
  destruct (truthy_num avg && Qltb 0 avg) eqn:Ht; [|discriminate].
  apply andb_true_iff in Ht. destruct Ht as [_ Hpos].
  apply Qltb_lt in Hpos.
  destruct (_determine_crash_level cfg ((avg - price) / avg))
    as [level mult] eqn:El.
  destruct (0 <? level)%Z eqn:Ez; [|discriminate].
  apply Z.ltb_lt in Ez.
  intro H. injection H as <-.
  exists avg. rewrite El. cbn [fst snd]. repeat split; auto.
Qed.

Lemma detect_pass_assessed (cfg : Config) (history_manager : HistoryManager)
    (all_items : dict Q) :
  forall (items : dict Q) (acc : dict Opportunity),
    incl items all_items ->
    Forall (fun kv => exists price,
                In (fst kv, price) all_items
                /\ assess cfg history_manager (fst kv) price = Some (snd kv))
      acc ->
    Forall (fun kv => exists price,
                In (fst kv, price) all_items
                /\ assess cfg history_manager (fst kv) price = Some (snd kv))
      (detect_pass cfg history_manager items acc).
Proof.
  induction items as [|[s c] items IH]; intros acc Hincl Hacc; simpl.
  - exact Hacc.
  - assert (Hin : In (s, c) all_items) by (apply Hincl; now left).
    assert (Hincl' : incl items all_items)
      by (intros x Hx; apply Hincl; now right).
    destruct (assess cfg history_manager s c) as [o|] eqn:E;
      apply IH; auto.
    apply Forall_dict_set; [exact Hacc|]. exists c. simpl. auto.
Qed.

(** X13. Every reported opportunity belongs to a symbol of
    [current_prices] and is well formed: it carries that price, a
    positive average price, a tier from 1 to 3 whose threshold the drop
    meets, that tier's multiplier, the drop in percent, and a suggested
    amount equal to the base amount times the multiplier. *)
Theorem reported_opportunities_well_formed (cfg : Config)
    (current_prices : dict Q) (history_manager : HistoryManager)
    (symbol : string) (o : Opportunity) :
  In (symbol, o)
    (detect_crash_opportunities cfg current_prices history_manager) ->
  In (symbol, current_price o) current_prices
  /\ 0 < avg_price o
  /\ (1 <= crash_level o <= 3)%Z
  /\ multiplier o = multiplier_of cfg (crash_level o)
  /\ drop_percent o
     = (avg_price o - current_price o) / avg_price o * 100
  /\ threshold_of cfg (crash_level o) * 100 <= drop_percent o
  /\ base_amount o
     = _get_weekly_budget cfg symbol * _get_base_allocation cfg symbol
  /\ suggested_amount o = base_amount o * multiplier o.
Proof.
  intro Hin.
  pose proof (detect_pass_assessed cfg history_manager current_prices
                current_prices [] (incl_refl _) (Forall_nil _)) as Hall.
  rewrite Forall_forall in Hall.
  destruct (Hall _ Hin) as (price & Hp & Ha). simpl in Hp, Ha.
  apply assess_some in Ha.
  destruct Ha as (avg & _ & Havg & Hlevel & ->).
  cbn [current_price avg_price drop_percent crash_level multiplier
       base_amount suggested_amount].
  set (d := (avg - price) / avg) in *.
  pose proof (crash_level_cases cfg d) as Hc. simpl in Hc.
  assert (Hfacts :
            (1 <= fst (_determine_crash_level cfg d) <= 3)%Z
            /\ snd (_determine_crash_level cfg d)
               = multiplier_of cfg (fst (_determine_crash_level cfg d))
            /\ threshold_of cfg (fst (_determine_crash_level cfg d))
               <= d).
  { unfold threshold_of, multiplier_of.
    destruct Hc as [(A & E)|[(A & B & E)|[(A & B & C & E)
                                          |(A & B & C & E)]]];
      rewrite E in *; cbn [fst snd] in *;
      (split; [lia|split; [reflexivity|]]); simpl; assumption || lia. }
  destruct Hfacts as (Hl & Hm & Ht).
  repeat split; auto; try lia. lra.
Qed.

Lemma reported_opportunities_well_formed_witness :
  exists o,
    In ("BTC"%string, o)
      (detect_crash_opportunities sample_config btc_only empty_history)
    /\ (1 <= crash_level o <= 3)%Z
    /\ suggested_amount o = base_amount o * multiplier o.
Proof.
  assert (Hin : exists o,
             In ("BTC"%string, o)
               (detect_crash_opportunities sample_config btc_only
                  empty_history)).
  { eexists. vm_compute. left. reflexivity. }
  destruct Hin as (o & Hin).
  exists o. split; [exact Hin|].
  destruct (reported_opportunities_well_formed _ _ _ _ _ Hin)
    as (_ & _ & Hl & _ & _ & _ & _ & Hs).
  split; [exact Hl | exact Hs].
Defined.


Lemma positive_is_truthy (x : Q) : 0 < x -> truthy_num x && Qltb 0 x = true.
Proof.
  intro H. apply andb_true_iff. split; [|now apply Qltb_lt].
  unfold truthy_num. apply negb_true_iff.
  destruct (Qeq_bool x 0) eqn:E; [|reflexivity].
  apply Qeq_bool_iff in E. rewrite E in H. lra.
Qed.

(** The assessment of a symbol whose reference price is [avg > 0]. *)
Lemma assess_with_average (cfg : Config) (history_manager : HistoryManager)
    (symbol : string) (price avg : Q) :
  _get_average_price symbol price history_manager
    (if is_stock_symbol symbol
     then stock_lookback_days (crash_config cfg)
     else crypto_lookback_days (crash_config cfg)) = Some avg ->
  0 < avg ->
  let tier := _determine_crash_level cfg ((avg - price) / avg) in
  (assess cfg history_manager symbol price = None <-> (fst tier <= 0)%Z)
  /\ forall o,
      assess cfg history_manager symbol price = Some o ->
      avg_price o = avg /\ crash_level o = fst tier
      /\ multiplier o = snd tier
      /\ drop_percent o = (avg - price) / avg * 100.
Proof.
  intros Havg Hpos tier. unfold assess. rewrite Havg.
  rewrite (positive_is_truthy _ Hpos). fold tier.
  destruct tier as [level mult]. cbn [fst snd].
  destruct (0 <? level)%Z eqn:E.
  - apply Z.ltb_lt in E. split.
    + split; [discriminate | lia].
    + intros o H. injection H as <-. simpl. auto.
  - apply Z.ltb_ge in E. split.
    + split; [intros _; exact E | reflexivity].
    + intros o H. discriminate H.
Qed.

Lemma detect_get_assess (cfg : Config) (current_prices : dict Q)
    (history_manager : HistoryManager) (symbol : string) (price : Q) :
  NoDup (keys current_prices) ->
  dict_get current_prices symbol = Some price ->
  dict_get (detect_crash_opportunities cfg current_prices history_manager)
    symbol
  = assess cfg history_manager symbol price.
Proof.
  intros Hnd Hget. unfold detect_crash_opportunities.
  rewrite (detect_pass_get _ _ _ _ _ Hnd), Hget. simpl.
  now destruct (assess cfg history_manager symbol price).
Qed.



(** X15. When the history lookup returns a positive average cost and
    the price is at or above it, the symbol is not reported, whatever
    the three thresholds are as long as they are positive. *)
Theorem not_reported_at_or_above_average (cfg : Config)
    (current_prices : dict Q) (history_manager : HistoryManager)
    (symbol : string) (price c : Q) :
  NoDup (keys current_prices) ->
  dict_get current_prices symbol = Some price ->
  history_manager symbol = Ok (Some c) ->
  0 < c -> c <= price ->
  0 < level1_threshold (crash_config cfg) ->
  0 < level2_threshold (crash_config cfg) ->
  0 < level3_threshold (crash_config cfg) ->
  ~ In symbol
      (keys (detect_crash_opportunities cfg current_prices history_manager)).
Proof.
  intros Hnd Hget Hh Hc Hge H1 H2 H3 Hin.
  assert (Havg : forall days,
             _get_average_price symbol price history_manager days = Some c).
  { intro days. unfold _get_average_price. rewrite Hh.
    now rewrite (positive_is_truthy _ Hc). }
  pose proof (assess_with_average cfg history_manager symbol price c
                (Havg _) Hc) as Ha.
  cbv zeta in Ha. destruct Ha as (Hnone & _).
  apply dict_contains_in in Hin. unfold dict_contains in Hin.
  rewrite (detect_get_assess _ _ _ _ _ Hnd Hget) in Hin.
  assert (Hdrop : (c - price) / c <= 0).
  { apply Qle_shift_div_r; [exact Hc | lra]. }
  assert (Htier : (fst (_determine_crash_level cfg ((c - price) / c)) <= 0)%Z).
  { pose proof (crash_level_cases cfg ((c - price) / c)) as Hcases.
    simpl in Hcases.
    destruct Hcases as [(A & E)|[(A & B & E)|[(A & B & C & E)
                                              |(A & B & C & E)]]];
      rewrite E; cbn [fst]; try lia; exfalso; lra. }
  apply Hnone in Htier. rewrite Htier in Hin. discriminate Hin.
Qed.

Lemma not_reported_at_or_above_average_witness :
  ~ In "QQQ"%string
      (keys (detect_crash_opportunities sample_config sample_stock_prices
               (fun _ => Ok (Some 350)))).
Proof.
  apply (not_reported_at_or_above_average sample_config
           sample_stock_prices (fun _ => Ok (Some 350)) "QQQ" 350 350).
  - simpl. repeat constructor; simpl; intuition discriminate.
  - reflexivity.
  - reflexivity.
  - reflexivity.
  - unfold Qle; simpl; lia.
  - reflexivity.
  - reflexivity.
  - reflexivity.
Defined.

(* ================================================================= *)
(** * Purchase history *)

Lemma cost_step_filter (s : string) :
  forall (l : list History.Purchase) (st : Q * Q),
    fold_left (History.cost_step s) l st
    = fold_left add_purchase (filter (fun p => History.is_symbol p s) l) st.
Proof.
  induction l as [|p l IH]; intro st; simpl; [reflexivity|].
  unfold History.cost_step at 2.
  destruct (History.is_symbol p s); simpl; apply IH.
Qed.

Lemma cost_totals_from (s : string) :
  forall (d : History.data) (st : Q * Q),
    fold_left (History.cost_of_investment s) d st
    = fold_left add_purchase (History.matching d s) st.
Proof.
  unfold History.matching, History.all_purchases.
  induction d as [|inv d IH]; intro st; simpl; [reflexivity|].
  rewrite IH. unfold History.cost_of_investment.
  rewrite !cost_step_filter, !filter_app, !fold_left_app. reflexivity.
Qed.

Lemma cost_totals_matching (d : History.data) (s : string) :
  History.cost_totals d s = fold_left add_purchase (History.matching d s) (0, 0).
Proof. apply cost_totals_from. Qed.



Lemma add_purchases_positive :
  forall (l : list History.Purchase) (st : Q * Q),
    Forall (fun p => 0 < History.num (History.quantity p)) l ->
    0 <= snd st ->
    let st' := fold_left add_purchase l st in
    snd st <= snd st'
    /\ (l <> [] -> 0 < snd st')
    /\ (Forall (fun p => 0 <= History.num (History.total p)) l ->
        0 <= fst st -> 0 <= fst st').
Proof.
  induction l as [|p l IH]; intros st Hall Hq; simpl.
  - split; [lra|]. split; [intro H; contradiction | intros _ H; exact H].
  - inversion Hall as [|? ? Hp Hrest]; subst.
    destruct (IH (add_purchase st p) Hrest) as (Hmono & _ & Hnonneg);
      unfold add_purchase in *; cbn [fst snd] in *; [lra|].
    split; [lra|]. split; [intros _; lra|].
    intros Ht Hf. inversion Ht as [|? ? Htp Htrest]; subst.
    apply Hnonneg; [exact Htrest | lra].
Qed.

(** X16. [get_average_cost] never divides by zero: it returns [None]
    for a symbol that was never bought, and an average cost whenever the
    symbol was bought and every purchase of it has a positive quantity;
    that average is non-negative when no purchase has a negative
    total. *)
Theorem average_cost_defined (d : History.data) (s : string) :
  (History.matching d s = [] -> History.get_average_cost d s = None)
  /\ (History.matching d s <> [] ->
      Forall (fun p => 0 < History.num (History.quantity p))
        (History.matching d s) ->
      exists a,
        History.get_average_cost d s = Some a
        /\ (Forall (fun p => 0 <= History.num (History.total p))
              (History.matching d s) ->
            0 <= a)).
Proof.
  unfold History.get_average_cost. rewrite cost_totals_matching. split.
  - intros ->. reflexivity.
  - intros Hne Hall.
    destruct (add_purchases_positive (History.matching d s) (0, 0) Hall)
      as (_ & Hpos & Hnonneg); cbn [fst snd]; [lra|].
    specialize (Hpos Hne).
    destruct (fold_left add_purchase (History.matching d s) (0, 0))
      as [tc tq]. cbn [fst snd] in *.
    assert (Hq : Qltb 0 tq = true) by now apply Qltb_lt.
    rewrite Hq.
    eexists. split; [reflexivity|].
    intro Ht. apply Qle_shift_div_l; [exact Hpos|].
    assert (0 <= tc) by (apply Hnonneg; [exact Ht | lra]). lra.
Qed.

Lemma average_cost_defined_witness :
  History.get_average_cost sample_history "BTC" = None
  /\ exists a,
      History.get_average_cost sample_history "QQQ" = Some a /\ 0 <= a.
Proof.
  split.
  - apply (proj1 (average_cost_defined sample_history "BTC")).
    reflexivity.
  - destruct (proj2 (average_cost_defined sample_history "QQQ"))
      as (a & Ha & Hnonneg).
    + discriminate.
    + simpl. repeat constructor.
    + exists a. split; [exact Ha|]. apply Hnonneg.
      simpl. repeat constructor; simpl; unfold Qle; simpl; lia.
Defined.

Lemma hold_step_mirrors (kind s : string) (holdings : dict History.Position)
    (st : Q * Q) (p : History.Purchase) :
  s <> EmptyString ->
  mirrors holdings s st ->
  mirrors (History.hold_step kind holdings p) s (History.cost_step s st p).
Proof.
  intros Hs Hm. unfold History.hold_step, History.cost_step, History.is_symbol.
  destruct (History.symbol p) as [s'|].
  - destruct (String.eqb s' s) eqn:E.
    + apply String.eqb_eq in E. subst s'.
      assert (Ht : truthy_str s = true) by (destruct s; [congruence|reflexivity]).
      rewrite Ht. unfold mirrors in *. rewrite dict_get_set_same.
      destruct (dict_get holdings s) as [h|]; subst st; reflexivity.
    + apply String.eqb_neq in E.
      destruct (truthy_str s'); [|exact Hm].
      unfold mirrors in *. now rewrite (dict_get_set_other _ _ _ _ E).
  - exact Hm.
Qed.

Lemma hold_steps_mirror (kind s : string) :
  s <> EmptyString ->
  forall (l : list History.Purchase) (holdings : dict History.Position)
         (st : Q * Q),
    mirrors holdings s st ->
    mirrors (fold_left (History.hold_step kind) l holdings) s
      (fold_left (History.cost_step s) l st).
Proof.
  intro Hs. induction l as [|p l IH]; intros holdings st Hm; simpl.
  - exact Hm.
  - apply IH. now apply hold_step_mirrors.
Qed.

Lemma hold_investments_mirror (s : string) :
  s <> EmptyString ->
  forall (d : History.data) (holdings : dict History.Position) (st : Q * Q),
    mirrors holdings s st ->
    mirrors (fold_left History.hold_investment d holdings) s
      (fold_left (History.cost_of_investment s) d st).
Proof.
  intro Hs. induction d as [|inv d IH]; intros holdings st Hm; simpl.
  - exact Hm.
  - apply IH. unfold History.hold_investment, History.cost_of_investment.
    now repeat apply hold_steps_mirror.
Qed.

Lemma dict_get_map_values {A B : Type} (f : A -> B) (d : dict A) k :
  dict_get (map (fun kv => (fst kv, f (snd kv))) d) k
  = option_map f (dict_get d k).
Proof.
  induction d as [|[k' v] d IH]; simpl; [reflexivity|].
  destruct (String.eqb k' k); [reflexivity | exact IH].
Qed.

(** X18. [get_portfolio_composition] and [get_average_cost] agree on
    every non-empty symbol: a holding carries exactly the total cost and
    quantity that [get_average_cost] adds up, its [avg_cost] is the
    average cost whenever the quantity is positive, and a symbol without
    a holding has no average cost. *)
Theorem composition_agrees_with_average_cost (d : History.data)
    (s : string) :
  s <> EmptyString ->
  match dict_get (History.get_portfolio_composition d) s with
  | Some h =>
      History.cost_totals d s
      = (History.held_total_cost h, History.held_quantity h)
      /\ History.get_average_cost d s
         = if Qltb 0 (History.held_quantity h)
           then Some (History.avg_cost h)
           else None
  | None => History.get_average_cost d s = None
  end.
Proof.
  intro Hs.
  assert (Hm : mirrors (fold_left History.hold_investment d []) s
                 (History.cost_totals d s)).
  { apply hold_investments_mirror; [exact Hs | reflexivity]. }
  unfold History.get_portfolio_composition, History.get_average_cost.
  rewrite dict_get_map_values. unfold mirrors in Hm.
  destruct (dict_get (fold_left History.hold_investment d []) s) as [h|];
    rewrite Hm; simpl.
  - split; [reflexivity|].
    destruct (Qltb 0 (History.pos_quantity h)); reflexivity.
  - reflexivity.
Qed.

Lemma composition_agrees_with_average_cost_witness :
  exists h,
    dict_get (History.get_portfolio_composition sample_history) "QQQ"
    = Some h
    /\ History.get_average_cost sample_history "QQQ"
       = Some (History.avg_cost h).
Proof.
  pose proof (composition_agrees_with_average_cost sample_history "QQQ")
    as H.
  destruct (dict_get (History.get_portfolio_composition sample_history)
              "QQQ") as [h|] eqn:E.
  - exists h. split; [reflexivity|].
    destruct H as (_ & Ha); [discriminate|].
    rewrite Ha.
    assert (Hq : Qltb 0 (History.held_quantity h) = true).
    { vm_compute in E. injection E as <-. reflexivity. }
    now rewrite Hq.
  - vm_compute in E. discriminate E.
Defined.

(* ================================================================= *)
(** * Crash detection over the recorded history *)



(** X21. A symbol that is in neither allocation can still be reported,
    but its base and suggested amounts are always zero. *)
Theorem unconfigured_symbol_suggests_nothing (cfg : Config)
    (current_prices : dict Q) (history_manager : HistoryManager)
    (symbol : string) (o : Opportunity) :
  dict_get (stock_allocation (portfolio cfg)) symbol = None ->
  dict_get (crypto_allocation (portfolio cfg)) symbol = None ->
  In (symbol, o)
    (detect_crash_opportunities cfg current_prices history_manager) ->
  base_amount o == 0 /\ suggested_amount o == 0.
Proof.
  intros Hs Hc Hin.
  pose proof (detect_pass_assessed cfg history_manager current_prices
                current_prices [] (incl_refl _) (Forall_nil _)) as Hall.
  rewrite Forall_forall in Hall.
  destruct (Hall _ Hin) as (price & _ & Ha). simpl in Ha.
  apply assess_some in Ha.
  destruct Ha as (avg & _ & _ & _ & ->).
  cbn [base_amount suggested_amount].
  unfold _get_base_allocation. rewrite Hs, Hc. split; ring.
Qed.

Lemma unconfigured_symbol_suggests_nothing_witness :
  exists o,
    In ("DOGE"%string, o)
      (detect_crash_opportunities sample_config [("DOGE", 1 # 10)]%string
         empty_history)
    /\ suggested_amount o == 0.
Proof.
  assert (Hin : exists o,
             In ("DOGE"%string, o)
               (detect_crash_opportunities sample_config
                  [("DOGE", 1 # 10)]%string empty_history)).
  { eexists. vm_compute. left. reflexivity. }
  destruct Hin as (o & Hin).
  exists o. split; [exact Hin|].
  apply (proj2 (unconfigured_symbol_suggests_nothing sample_config
                  [("DOGE", 1 # 10)]%string empty_history "DOGE" o
                  eq_refl eq_refl Hin)).
Defined.
